(** * SENTINEL review dashboard (src/App.js): the review controller

    A shallow embedding of the [App] component of src/App.js: its six
    pieces of React state, the three handlers [fetchData],
    [showNotification] and [handleReview], and the buttons of the action
    area that call them.

    The handlers are [async]: each one runs until its next [await], and is
    resumed when the awaited gateway call settles.  A handler is therefore
    embedded as one function per segment between two [await]s; a suspended
    segment is a [Pending] frame kept in the state, and other events (a
    click, a timer, another handler) can run while it waits.  The
    [setTimeout] callbacks run against a virtual clock. *)

From Stdlib Require Import ZArith List String Bool Lia.
Import ListNotations.
Open Scope string_scope.
Open Scope list_scope.
Open Scope Z_scope.

(** ** Data *)

(** A sample as the gateway sends it.  The controller only reads
    [predicted_action]; the other fields are displayed and sent back
    untouched. *)
Record Sample := mkSample {
  ip : string;
  predicted_action : Z
}.

Record Stats := mkStats {
  accuracy : Z;
  total_reviewed : Z;
  correct_predictions : Z;
  incorrect_predictions : Z;
  pending_feedback_count : Z;
  pending_feedback_threshold : Z;
  retraining_in_progress : bool
}.

(** [{ message, type }] of line 60. *)
Record Notification := mkNotification {
  message : string;
  type : string
}.

(** [ACTIONS], lines 19-23: the labels of the three ordinals. *)
Definition ACTIONS (a : Z) : option string :=
  if a =? 0 then Some "ALLOW"
  else if a =? 1 then Some "RATE LIMIT"
  else if a =? 2 then Some "BLOCK"
  else None.

(** The JavaScript values that occur in the body of a review request. *)
Inductive JsValue :=
| JsUndefined
| JsNull
| JsBool (b : bool)
| JsNumber (n : Z)
| JsSample (s : Sample).

(** An object literal: its keys in order, each with its value. *)
Definition JsObject := list (string * JsValue).

Definition is_undefined (v : JsValue) : bool :=
  match v with JsUndefined => true | _ => false end.

(** [JSON.stringify] on an object literal, up to the concrete text: a key
    whose value is [undefined] is left out, a key whose value is [null] is
    written. *)
Definition JSON_stringify (o : JsObject) : JsObject :=
  filter (fun kv => negb (is_undefined (snd kv))) o.

(** The value of key [k] in a serialized body; [None] when the body has no
    such key. *)
Fixpoint field (k : string) (o : JsObject) : option JsValue :=
  match o with
  | [] => None
  | (k', v) :: o' => if String.eqb k k' then Some v else field k o'
  end.

(** ** The gateway *)

Inductive Request :=
| GET_load_samples
| GET_stats
| POST_review (body : JsObject).

(** What the awaits on one gateway call ([fetch], then [.json()]) give:
    either of the two rejects (network or parse failure), or the parsed
    reply. *)
Inductive Outcome (A : Type) :=
| Rejected
| Json (data : A).
Arguments Rejected {A}.
Arguments Json {A} data.

Record LoadSamplesReply := mkLoadSamplesReply {
  samplesData_success : bool;
  samplesData_samples : list Sample
}.

Record StatsReply := mkStatsReply {
  statsData_success : bool;
  statsData_stats : Stats
}.

Record ReviewReply := mkReviewReply {
  result_success : bool;
  result_message : string
}.

(** ** State *)

(** A handler suspended at an [await]. *)
Inductive Pending :=
| fetchData_await_all                       (* lines 36-42 *)
| handleReview_await_review (isCorrect : bool)  (* lines 71-81 *)
| handleReview_await_stats.                 (* lines 88-89 *)

(** What a handler does to the outside, in the order it does it. *)
Inductive Effect :=
| SetSamples (l : list Sample)
| SetStats (s : Stats)
| SetLoading (b : bool)
| SetProcessing (b : bool)
| SetCorrectionMode (b : bool)
| SetNotification (n : option Notification)
| SetTimeout (due : Z)
| Fetch (r : Request).

Record State := mkState {
  (* the six [useState] cells, lines 26-31 *)
  samples : list Sample;
  stats : option Stats;
  loading : bool;
  processing : bool;
  correctionMode : bool;
  notification : option Notification;
  (* the environment *)
  clock : Z;                 (* virtual time *)
  timeouts : list Z;         (* due times of the armed [setTimeout]s of line 61 *)
  inflight : list Pending;   (* suspended handlers, oldest first *)
  log : list Effect          (* effects so far, oldest first *)
}.

(** The component as mounted, before its first effect runs. *)
Definition initial : State :=
  {| samples := []; stats := None; loading := true; processing := false;
     correctionMode := false; notification := None;
     clock := 0; timeouts := []; inflight := []; log := [] |}.

Definition emit (e : Effect) (st : State) : State :=
  {| samples := samples st; stats := stats st; loading := loading st;
     processing := processing st; correctionMode := correctionMode st;
     notification := notification st; clock := clock st;
     timeouts := timeouts st; inflight := inflight st;
     log := log st ++ [e] |}.

Definition setSamples (l : list Sample) (st : State) : State :=
  let st := emit (SetSamples l) st in
  {| samples := l; stats := stats st; loading := loading st;
     processing := processing st; correctionMode := correctionMode st;
     notification := notification st; clock := clock st;
     timeouts := timeouts st; inflight := inflight st; log := log st |}.

Definition setStats (s : Stats) (st : State) : State :=
  let st := emit (SetStats s) st in
  {| samples := samples st; stats := Some s; loading := loading st;
     processing := processing st; correctionMode := correctionMode st;
     notification := notification st; clock := clock st;
     timeouts := timeouts st; inflight := inflight st; log := log st |}.

Definition setLoading (b : bool) (st : State) : State :=
  let st := emit (SetLoading b) st in
  {| samples := samples st; stats := stats st; loading := b;
     processing := processing st; correctionMode := correctionMode st;
     notification := notification st; clock := clock st;
     timeouts := timeouts st; inflight := inflight st; log := log st |}.

Definition setProcessing (b : bool) (st : State) : State :=
  let st := emit (SetProcessing b) st in
  {| samples := samples st; stats := stats st; loading := loading st;
     processing := b; correctionMode := correctionMode st;
     notification := notification st; clock := clock st;
     timeouts := timeouts st; inflight := inflight st; log := log st |}.

Definition setCorrectionMode (b : bool) (st : State) : State :=
  let st := emit (SetCorrectionMode b) st in
  {| samples := samples st; stats := stats st; loading := loading st;
     processing := processing st; correctionMode := b;
     notification := notification st; clock := clock st;
     timeouts := timeouts st; inflight := inflight st; log := log st |}.

Definition setNotification (n : option Notification) (st : State) : State :=
  let st := emit (SetNotification n) st in
  {| samples := samples st; stats := stats st; loading := loading st;
     processing := processing st; correctionMode := correctionMode st;
     notification := n; clock := clock st;
     timeouts := timeouts st; inflight := inflight st; log := log st |}.

(** [setTimeout(() => setNotification(null), delay)]: the only callback the
    component ever arms, so a timer is its due time.  Nothing in the
    source keeps the timer's handle: there is no [clearTimeout]. *)
Definition setTimeout (delay : Z) (st : State) : State :=
  let st := emit (SetTimeout (clock st + delay)) st in
  {| samples := samples st; stats := stats st; loading := loading st;
     processing := processing st; correctionMode := correctionMode st;
     notification := notification st; clock := clock st;
     timeouts := timeouts st ++ [clock st + delay];
     inflight := inflight st; log := log st |}.

(** [fetch(...)]: the request leaves. *)
Definition fetch (r : Request) (st : State) : State := emit (Fetch r) st.

(** The running handler stops at an [await]. *)
Definition suspend (p : Pending) (st : State) : State :=
  {| samples := samples st; stats := stats st; loading := loading st;
     processing := processing st; correctionMode := correctionMode st;
     notification := notification st; clock := clock st;
     timeouts := timeouts st; inflight := inflight st ++ [p];
     log := log st |}.

Definition set_inflight (l : list Pending) (st : State) : State :=
  {| samples := samples st; stats := stats st; loading := loading st;
     processing := processing st; correctionMode := correctionMode st;
     notification := notification st; clock := clock st;
     timeouts := timeouts st; inflight := l; log := log st |}.

Definition set_clock (t : Z) (l : list Z) (st : State) : State :=
  {| samples := samples st; stats := stats st; loading := loading st;
     processing := processing st; correctionMode := correctionMode st;
     notification := notification st; clock := t;
     timeouts := l; inflight := inflight st; log := log st |}.

Notation "st |> f" := (f st) (at level 45, left associativity, only parsing).

(** [setSamples(prev => f(prev))]: the update reads the queue as it is when
    the update runs, not as the handler saw it when it started. *)
Definition updateSamples (f : list Sample -> list Sample) (st : State) : State :=
  setSamples (f (samples st)) st.

(** ** The handlers *)

(** [showNotification], lines 59-62.  The [type] parameter defaults to
    ['success'] in the source; every caller modelled here passes it. *)
Definition showNotification (msg ty : string) (st : State) : State :=
  st |> setNotification (Some {| message := msg; type := ty |})
     |> setTimeout 3000.

(** [fetchData], lines 34-39: both requests leave, then the handler waits
    on [Promise.all]. *)
Definition fetchData (st : State) : State :=
  st |> fetch GET_load_samples
     |> fetch GET_stats
     |> suspend fetchData_await_all.

(** [fetchData], lines 36-50, from the moment [Promise.all] settles.
    [Promise.all] rejects as soon as one of the two calls rejects, and a
    rejecting [.json()] throws in the same [try]: in all these cases control
    goes to the [catch] before either setter of lines 44-45 has run. *)
Definition fetchData_resume
    (samplesRes : Outcome LoadSamplesReply) (statsRes : Outcome StatsReply)
    (st : State) : State :=
  (match samplesRes, statsRes with
   | Json samplesData, Json statsData =>
       let st :=
         if samplesData_success samplesData
         then setSamples (samplesData_samples samplesData) st else st in
       if statsData_success statsData
       then setStats (statsData_stats statsData) st else st
   | _, _ =>
       showNotification "Error connecting to Firewall API" "error" st
   end)
  |> setLoading false.

(** The body of the review request, lines 74-78. *)
Definition review_body (currentSample : Sample) (isCorrect : bool)
    (correctedAction : JsValue) : JsObject :=
  JSON_stringify
    [ ("sample", JsSample currentSample);
      ("is_correct", JsBool isCorrect);
      ("corrected_action", correctedAction) ].

(** [handleReview], lines 64-79: up to the first [await]. *)
Definition handleReview (isCorrect : bool) (correctedAction : JsValue)
    (st : State) : State :=
  match samples st with
  | [] => st
  | currentSample :: _ =>
      st |> setProcessing true
         |> fetch (POST_review (review_body currentSample isCorrect correctedAction))
         |> suspend (handleReview_await_review isCorrect)
  end.

(** [handleReview], lines 81-97, from the moment the review call settles
    up to the second [await] (line 88) or to the end. *)
Definition handleReview_resume_review (isCorrect : bool)
    (res : Outcome ReviewReply) (st : State) : State :=
  match res with
  | Json result =>
      if result_success result then
        st |> showNotification (result_message result)
                (if isCorrect then "success" else "warning")
           |> updateSamples (@tl Sample)
           |> fetch GET_stats
           |> suspend handleReview_await_stats
      else
        st |> setProcessing false
  | Rejected =>
      st |> showNotification "Failed to submit review" "error"
         |> setProcessing false
  end.

(** [handleReview], lines 88-97, from the moment the stats call settles. *)
Definition handleReview_resume_stats (res : Outcome StatsReply)
    (st : State) : State :=
  match res with
  | Json statsData =>
      (if statsData_success statsData
       then setStats (statsData_stats statsData) st else st)
      |> setCorrectionMode false
      |> setProcessing false
  | Rejected =>
      st |> showNotification "Failed to submit review" "error"
         |> setProcessing false
  end.

(** ** The clock *)

(** Time moves to [t]: every timer due by then runs its callback,
    [setNotification(null)], and is gone. *)
Definition elapse (t : Z) (st : State) : State :=
  let due := filter (fun d => d <=? t) (timeouts st) in
  let rest := filter (fun d => negb (d <=? t)) (timeouts st) in
  fold_left (fun st _ => setNotification None st) due
    (set_clock (Z.max (clock st) t) rest st).

(** ** The action area, lines 347-387 *)

(** [samples[0]], line 113. *)
Definition currentSample (st : State) : option Sample := hd_error (samples st).

(** The actions offered by the correction panel, lines 369-370. *)
Definition correction_options (s : Sample) : list Z :=
  filter (fun a => negb (a =? predicted_action s)) [0; 1; 2].

Inductive Button :=
| btn_confirm
| btn_reject
| btn_option (action : Z)
| btn_cancel.

(** Whether a button is on screen and not [disabled]. *)
Definition enabled (b : Button) (st : State) : bool :=
  if loading st then false                       (* line 111 *)
  else match currentSample st with
       | None => false                           (* the empty state, line 390 *)
       | Some s =>
           if negb (correctionMode st) then
             match b with
             | btn_confirm | btn_reject => negb (processing st)
             | _ => false
             end
           else
             match b with
             | btn_option a => existsb (Z.eqb a) (correction_options s)
             | btn_cancel => true
             | _ => false
             end
       end.

Definition onClick (b : Button) (st : State) : State :=
  match b with
  | btn_confirm => handleReview true JsNull st        (* line 352 *)
  | btn_reject => setCorrectionMode true st           (* line 359 *)
  | btn_option a => handleReview false (JsNumber a) st  (* line 376 *)
  | btn_cancel => setCorrectionMode false st          (* line 381 *)
  end.

(** ** Runs *)

Inductive Event :=
| Mount                                   (* the effect of lines 53-57 *)
| IntervalTick                            (* [setInterval(fetchData, 30000)] *)
| Click (b : Button)
| Elapse (t : Z)
| SettleFetchData (i : nat) (samplesRes : Outcome LoadSamplesReply)
                  (statsRes : Outcome StatsReply)
| SettleReview (i : nat) (res : Outcome ReviewReply)
| SettleStats (i : nat) (res : Outcome StatsReply).

Fixpoint remove_nth {A} (i : nat) (l : list A) : list A :=
  match i, l with
  | _, [] => []
  | O, _ :: l' => l'
  | S i', x :: l' => x :: remove_nth i' l'
  end.

(** The [i]-th suspended handler leaves the list: it is running again. *)
Definition resume (i : nat) (st : State) : State :=
  set_inflight (remove_nth i (inflight st)) st.

Definition step (e : Event) (st : State) : State :=
  match e with
  | Mount | IntervalTick => fetchData st
  | Click b => if enabled b st then onClick b st else st
  | Elapse t => elapse t st
  | SettleFetchData i samplesRes statsRes =>
      match nth_error (inflight st) i with
      | Some fetchData_await_all =>
          fetchData_resume samplesRes statsRes (resume i st)
      | _ => st
      end
  | SettleReview i res =>
      match nth_error (inflight st) i with
      | Some (handleReview_await_review isCorrect) =>
          handleReview_resume_review isCorrect res (resume i st)
      | _ => st
      end
  | SettleStats i res =>
      match nth_error (inflight st) i with
      | Some handleReview_await_stats =>
          handleReview_resume_stats res (resume i st)
      | _ => st
      end
  end.

Definition run (es : list Event) (st : State) : State :=
  fold_left (fun st e => step e st) es st.

(** ** Fixed inputs and the vocabulary of the statements *)

(** Fixed inputs for the closed examples. *)
Definition sample_a : Sample := {| ip := "1.2.3.4"; predicted_action := 2 |}.
Definition sample_b : Sample := {| ip := "5.6.7.8"; predicted_action := 0 |}.

Definition stats_80 : Stats :=
  {| accuracy := 80; total_reviewed := 10; correct_predictions := 8;
     incorrect_predictions := 2; pending_feedback_count := 2;
     pending_feedback_threshold := 50; retraining_in_progress := false |}.

(** The dashboard after its first load brought two samples. *)
Definition loaded : State :=
  run [ Mount;
        SettleFetchData 0
          (Json {| samplesData_success := true;
                   samplesData_samples := [sample_a; sample_b] |})
          (Json {| statsData_success := true; statsData_stats := stats_80 |}) ]
      initial.

(** The severity of line 84. *)
Definition severity (isCorrect : bool) : string :=
  if isCorrect then "success" else "warning".

(** The events that belong to [handleReview]: the clicks that may call it
    and the settling of its two gateway calls. *)
Definition of_handleReview (e : Event) : bool :=
  match e with
  | Click _ | SettleReview _ _ | SettleStats _ _ => true
  | _ => false
  end.

(** ** The retraining trigger, lines 100-109 and 171-177 *)

(** The reply of [/trigger_retraining]; the handler reads its [message]. *)
Record RetrainReply := mkRetrainReply {
  retrain_message : string
}.

(** The component together with its retraining calls.  The request of
    line 102 has no body, so the calls are counted: how many were sent, and
    how many [triggerRetraining] handlers wait for their reply. *)
Record Dashboard := mkDashboard {
  component : State;
  retraining_sent : nat;
  retraining_inflight : nat
}.

(** [triggerRetraining], lines 100-102: up to the [await]. *)
Definition triggerRetraining (d : Dashboard) : Dashboard :=
  {| component := component d;
     retraining_sent := S (retraining_sent d);
     retraining_inflight := S (retraining_inflight d) |}.

(** [triggerRetraining], lines 102-108, from the moment the call settles.
    [showNotification(result.message)] takes the default type ['success'];
    [fetchData()] is called and not awaited, so it runs up to its own
    [await] and the handler ends. *)
Definition triggerRetraining_resume (res : Outcome RetrainReply)
    (d : Dashboard) : Dashboard :=
  {| component :=
       match res with
       | Json result =>
           component d |> showNotification (retrain_message result) "success"
                 |> fetchData
       | Rejected =>
           component d |> showNotification "Failed to trigger retraining" "error"
       end;
     retraining_sent := retraining_sent d;
     retraining_inflight := pred (retraining_inflight d) |}.

(** The retrain button, lines 171-177: in the sidebar, so on screen as soon
    as the loading screen is gone; [disabled={stats?.retraining_in_progress}]
    is falsy while [stats] is [null]. *)
Definition retrain_btn_enabled (st : State) : bool :=
  if loading st then false
  else match stats st with
       | Some s => negb (retraining_in_progress s)
       | None => true
       end.

Inductive DashboardEvent :=
| AppEvent (e : Event)
| ClickRetrain
| SettleRetraining (res : Outcome RetrainReply).

Definition lift (f : State -> State) (d : Dashboard) : Dashboard :=
  {| component := f (component d);
     retraining_sent := retraining_sent d;
     retraining_inflight := retraining_inflight d |}.

Definition dashboard_step (e : DashboardEvent) (d : Dashboard) : Dashboard :=
  match e with
  | AppEvent e => lift (step e) d
  | ClickRetrain =>
      if retrain_btn_enabled (component d) then triggerRetraining d else d
  | SettleRetraining res =>
      match retraining_inflight d with
      | O => d
      | S _ => triggerRetraining_resume res d
      end
  end.

Definition dashboard_run (es : list DashboardEvent) (d : Dashboard) : Dashboard :=
  fold_left (fun d e => dashboard_step e d) es d.

(** The dashboard as mounted. *)
Definition dashboard_initial : Dashboard :=
  {| component := initial; retraining_sent := 0; retraining_inflight := 0 |}.

(** ** Vocabulary of the statements about runs *)

(** One review round from the direct state: the operator confirms, the
    gateway acknowledges with [msg], the stats call gives [statsRes]. *)
Definition confirm_round (msg : string) (statsRes : Outcome StatsReply)
    : list Event :=
  [ Click btn_confirm;
    SettleReview 0 (Json {| result_success := true; result_message := msg |});
    SettleStats 0 statsRes ].

Definition confirm_rounds (rounds : list (string * Outcome StatsReply))
    : list Event :=
  flat_map (fun r => confirm_round (fst r) (snd r)) rounds.

(** The two buttons of the direct state. *)
Definition is_direct_button (b : Button) : bool :=
  match b with
  | btn_confirm | btn_reject => true
  | _ => false
  end.

(** A suspended [handleReview], at either of its [await]s. *)
Definition is_review_frame (p : Pending) : bool :=
  match p with
  | fetchData_await_all => false
  | handleReview_await_review _ | handleReview_await_stats => true
  end.

(** [processing] is held only while some [handleReview] is suspended. *)
Definition latch_backed (st : State) : Prop :=
  processing st = true -> existsb is_review_frame (inflight st) = true.

(** A visible notification has a timer armed, and no timer is due later
    than 3000 units from now. *)
Definition timers_sound (st : State) : Prop :=
  (notification st <> None -> timeouts st <> []) /\
  Forall (fun d => d <= clock st + 3000) (timeouts st).

(** The events of the retraining trigger alone: a click on its button, the
    settling of one of its calls. *)
Definition is_retraining_event (e : DashboardEvent) : bool :=
  match e with
  | ClickRetrain | SettleRetraining _ => true
  | AppEvent _ => false
  end.

Definition is_retrain_click (e : DashboardEvent) : bool :=
  match e with
  | ClickRetrain => true
  | _ => false
  end.

(** * Properties *)

(** ** Helper facts *)

Lemma handleReview_samples isCorrect correctedAction st :
  samples (handleReview isCorrect correctedAction st) = samples st.
Proof. unfold handleReview. destruct (samples st) eqn:E; cbn; auto. Qed.

Lemma onClick_samples b st : samples (onClick b st) = samples st.
Proof. destruct b; cbn; auto using handleReview_samples. Qed.

Lemma resume_stats_samples res st :
  samples (handleReview_resume_stats res st) = samples st.
Proof.
  destruct res as [|statsData]; cbn; auto.
  destruct (statsData_success statsData); cbn; auto.
Qed.

Lemma resume_review_samples isCorrect res st :
  samples (handleReview_resume_review isCorrect res st) =
  match res with
  | Json result => if result_success result then tl (samples st) else samples st
  | Rejected => samples st
  end.
Proof.
  destruct res as [|result]; cbn; auto.
  destruct (result_success result); cbn; auto.
Qed.

Lemma fire_samples (due : list Z) st :
  samples (fold_left (fun st _ => setNotification None st) due st) = samples st.
Proof.
  revert st. induction due as [|d due IH]; intros st; cbn; auto.
  rewrite IH. reflexivity.
Qed.

Lemma elapse_samples t st : samples (elapse t st) = samples st.
Proof. unfold elapse. rewrite fire_samples. reflexivity. Qed.

Lemma resume_samples i st : samples (resume i st) = samples st.
Proof. reflexivity. Qed.

(** ** The queue under [handleReview] *)

(** C8: a review against an empty queue does nothing.  [handleReview]
    returns the state it was given, whatever its arguments: no request in
    the log, no suspended handler, no setter called, no notification; and
    no button of the action area is live, so no click does anything
    either. *)
Theorem handleReview_empty_queue_noop
    (isCorrect : bool) (correctedAction : JsValue) (b : Button) (st : State) :
  samples st = [] ->
  handleReview isCorrect correctedAction st = st /\
  step (Click b) st = st.
Proof.
  intros Hempty. split.
  - unfold handleReview. rewrite Hempty. reflexivity.
  - cbn. unfold enabled, currentSample. rewrite Hempty. cbn.
    destruct (loading st); reflexivity.
Qed.

Lemma handleReview_empty_queue_noop_witness :
  handleReview true JsNull initial = initial /\
  step (Click btn_confirm) initial = initial.
Proof.
  apply (handleReview_empty_queue_noop true JsNull btn_confirm initial).
  reflexivity.
Defined.

(** C4: no step of [handleReview] shortens the queue unless it is the
    arrival of a review reply whose [success] is true.  Of the events that
    belong to [handleReview] (the clicks, the settling of the review call,
    the settling of the stats call), one that changes the queue is a
    review reply with [success] true, and what it does is drop the head. *)
Theorem dequeue_only_on_review_success (e : Event) (st : State) :
  of_handleReview e = true ->
  samples (step e st) <> samples st ->
  exists i result,
    e = SettleReview i (Json result) /\
    result_success result = true /\
    samples (step e st) = tl (samples st).
Proof.
  intros He Hchanged.
  destruct e as [ | | b | t | i sr tr | i res | i res ]; try discriminate He;
    cbn in Hchanged |- *.
  - exfalso. apply Hchanged.
    destruct (enabled b st); auto using onClick_samples.
  - destruct (nth_error (inflight st) i) as [[ | isCorrect | ]|];
      try (exfalso; apply Hchanged; reflexivity).
    rewrite resume_review_samples, resume_samples in Hchanged |- *.
    destruct res as [|result]; [exfalso; auto|].
    destruct (result_success result) eqn:Hs; [|exfalso; auto].
    exists i, result. auto.
  - exfalso. apply Hchanged.
    destruct (nth_error (inflight st) i) as [[ | isCorrect | ]|]; auto.
    rewrite resume_stats_samples. reflexivity.
Qed.

Lemma dequeue_only_on_review_success_witness :
  let ack := {| result_success := true; result_message := "Updated" |} in
  let st := step (Click btn_confirm) loaded in
  exists i result,
    SettleReview 0 (Json ack) = SettleReview i (Json result) /\
    result_success result = true /\
    samples (step (SettleReview 0 (Json ack)) st) = tl (samples st).
Proof.
  apply dequeue_only_on_review_success.
  - reflexivity.
  - vm_compute. discriminate.
Defined.

(** C5, as the code has it: a failed review leaves the queue and the
    correction mode as they were and clears [processing]; a notification
    ("Failed to submit review", error) is raised when the call rejects,
    and none at all when the reply is well-formed with [success] false. *)
Theorem review_failure_effects
    (isCorrect : bool) (res : Outcome ReviewReply) (st : State) :
  res = Rejected \/ (exists result, res = Json result /\ result_success result = false) ->
  let st' := handleReview_resume_review isCorrect res st in
  samples st' = samples st /\
  correctionMode st' = correctionMode st /\
  processing st' = false /\
  log st' =
    log st ++
    match res with
    | Rejected =>
        [ SetNotification
            (Some {| message := "Failed to submit review"; type := "error" |});
          SetTimeout (clock st + 3000);
          SetProcessing false ]
    | Json _ => [ SetProcessing false ]
    end /\
  notification st' =
    match res with
    | Rejected => Some {| message := "Failed to submit review"; type := "error" |}
    | Json _ => notification st
    end.
Proof.
  intros [-> | (result & -> & Hs)]; cbn.
  - repeat split; auto. repeat rewrite <- app_assoc. reflexivity.
  - rewrite Hs. cbn. repeat split; auto.
Qed.

Lemma review_failure_effects_witness :
  let res := Json {| result_success := false; result_message := "rejected" |} in
  let st := step (Click btn_confirm) loaded in
  let st' := handleReview_resume_review true res st in
  samples st' = samples st /\
  correctionMode st' = correctionMode st /\
  processing st' = false /\
  log st' = log st ++ [ SetProcessing false ] /\
  notification st' = notification st.
Proof.
  apply (review_failure_effects true
           (Json {| result_success := false; result_message := "rejected" |})
           (step (Click btn_confirm) loaded)).
  right. eexists. split; reflexivity.
Defined.

(** C5 as stated fails on a well-formed reply with [success] false: the
    operator confirms the head sample, the gateway answers
    [{success: false}], and no notification is raised. *)
Lemma review_rejected_by_server_raises_nothing :
  let st := step (Click btn_confirm) loaded in
  let st' :=
    step (SettleReview 0
            (Json {| result_success := false; result_message := "rejected" |})) st in
  notification st' = None /\
  log st' = log st ++ [ SetProcessing false ].
Proof. vm_compute. split; reflexivity. Qed.

(** ** An acknowledged review *)

(** C6, as the code has it: when the review is acknowledged with
    [success] true and the stats call that follows gives a well-formed
    reply, the handler does, in this order and only after the
    acknowledgement: the notification with the server's message (success
    if [isCorrect], else warning), the removal of the head sample, one
    stats request (no sample reload), the replacement of the stats if that
    reply's [success] is true, the exit from correction mode, and the
    return to idle.  Before the acknowledgement it has only set
    [processing] and sent the review. *)
Theorem review_success_order
    (isCorrect : bool) (correctedAction : JsValue) (msg : string)
    (statsData : StatsReply) (s : Sample) (rest : list Sample) (st : State) :
  samples st = s :: rest ->
  let ack := Json {| result_success := true; result_message := msg |} in
  let st1 := handleReview isCorrect correctedAction st in
  let st2 := handleReview_resume_review isCorrect ack st1 in
  let st3 := handleReview_resume_stats (Json statsData) st2 in
  log st1 =
    log st ++
    [ SetProcessing true;
      Fetch (POST_review (review_body s isCorrect correctedAction)) ] /\
  samples st1 = s :: rest /\
  log st2 =
    log st1 ++
    [ SetNotification (Some {| message := msg; type := severity isCorrect |});
      SetTimeout (clock st + 3000);
      SetSamples rest;
      Fetch GET_stats ] /\
  log st3 =
    log st2 ++
    (if statsData_success statsData
     then [ SetStats (statsData_stats statsData) ] else []) ++
    [ SetCorrectionMode false; SetProcessing false ] /\
  samples st3 = rest /\
  correctionMode st3 = false /\
  processing st3 = false.
Proof.
  intros Hq. unfold handleReview. rewrite Hq.
  destruct st; cbn in *. subst.
  destruct (statsData_success statsData); cbn;
    repeat rewrite <- app_assoc; cbn; repeat split; reflexivity.
Qed.

Lemma review_success_order_witness :
  let st := loaded in
  let ack := Json {| result_success := true; result_message := "Updated" |} in
  let statsData := {| statsData_success := true; statsData_stats := stats_80 |} in
  let st1 := handleReview true JsNull st in
  let st2 := handleReview_resume_review true ack st1 in
  let st3 := handleReview_resume_stats (Json statsData) st2 in
  log st1 =
    log st ++
    [ SetProcessing true;
      Fetch (POST_review (review_body sample_a true JsNull)) ] /\
  samples st1 = [sample_a; sample_b] /\
  log st2 =
    log st1 ++
    [ SetNotification (Some {| message := "Updated"; type := severity true |});
      SetTimeout (clock st + 3000);
      SetSamples [sample_b];
      Fetch GET_stats ] /\
  log st3 =
    log st2 ++ [ SetStats stats_80 ] ++
    [ SetCorrectionMode false; SetProcessing false ] /\
  samples st3 = [sample_b] /\
  correctionMode st3 = false /\
  processing st3 = false.
Proof.
  apply (review_success_order true JsNull "Updated"
           {| statsData_success := true; statsData_stats := stats_80 |}
           sample_a [sample_b] loaded).
  reflexivity.
Defined.

(** C6 as stated fails when the stats call rejects: the review of the
    head sample is acknowledged from the correction panel, the stats call
    that follows rejects, and the panel stays open. *)
Lemma acknowledged_review_may_stay_in_correction_mode :
  let st :=
    run [ Click btn_reject;
          Click (btn_option 0);
          SettleReview 0 (Json {| result_success := true; result_message := "Updated" |});
          SettleStats 0 Rejected ]
        loaded in
  samples st = [sample_b] /\ correctionMode st = true.
Proof. vm_compute. split; reflexivity. Qed.

(** C10: when the review is acknowledged with [success] true and the
    stats call that follows rejects, the head sample stays removed, the
    notification of the acknowledgement is replaced by the error "Failed
    to submit review", correction mode is as it was before the call, and
    [processing] is cleared. *)
Theorem stats_refetch_failure_after_ack
    (isCorrect : bool) (correctedAction : JsValue) (msg : string)
    (s : Sample) (rest : list Sample) (st : State) :
  samples st = s :: rest ->
  let ack := Json {| result_success := true; result_message := msg |} in
  let st1 := handleReview isCorrect correctedAction st in
  let st2 := handleReview_resume_review isCorrect ack st1 in
  let st3 := handleReview_resume_stats Rejected st2 in
  notification st2 = Some {| message := msg; type := severity isCorrect |} /\
  samples st2 = rest /\
  samples st3 = rest /\
  notification st3 =
    Some {| message := "Failed to submit review"; type := "error" |} /\
  correctionMode st3 = correctionMode st /\
  stats st3 = stats st /\
  processing st3 = false.
Proof.
  intros Hq. unfold handleReview. rewrite Hq.
  destruct st; cbn in *. subst. repeat split; reflexivity.
Qed.

Lemma stats_refetch_failure_after_ack_witness :
  let st := step (Click btn_reject) loaded in
  let ack := Json {| result_success := true; result_message := "Updated" |} in
  let st1 := handleReview false (JsNumber 0) st in
  let st2 := handleReview_resume_review false ack st1 in
  let st3 := handleReview_resume_stats Rejected st2 in
  notification st2 = Some {| message := "Updated"; type := severity false |} /\
  samples st2 = [sample_b] /\
  samples st3 = [sample_b] /\
  notification st3 =
    Some {| message := "Failed to submit review"; type := "error" |} /\
  correctionMode st3 = correctionMode st /\
  stats st3 = stats st /\
  processing st3 = false.
Proof.
  apply (stats_refetch_failure_after_ack false (JsNumber 0) "Updated"
           sample_a [sample_b] (step (Click btn_reject) loaded)).
  reflexivity.
Defined.

(** ** [fetchData] *)

(** C1, as the code has it: the two calls of [fetchData] are joined by
    [Promise.all] inside one [try].  When one of them rejects (whatever
    the other gives), neither slice is applied: the queue and the stats
    both keep their prior value; exactly one notification is raised, the
    error "Error connecting to Firewall API"; and [loading] is cleared. *)
Theorem fetchData_rejection_applies_nothing
    (samplesRes : Outcome LoadSamplesReply) (statsRes : Outcome StatsReply)
    (st : State) :
  samplesRes = Rejected \/ statsRes = Rejected ->
  let st' := fetchData_resume samplesRes statsRes st in
  samples st' = samples st /\
  stats st' = stats st /\
  log st' =
    log st ++
    [ SetNotification
        (Some {| message := "Error connecting to Firewall API"; type := "error" |});
      SetTimeout (clock st + 3000);
      SetLoading false ] /\
  notification st' =
    Some {| message := "Error connecting to Firewall API"; type := "error" |} /\
  loading st' = false.
Proof.
  intros H.
  assert (Hcatch : fetchData_resume samplesRes statsRes st =
                   setLoading false
                     (showNotification "Error connecting to Firewall API" "error" st)).
  { unfold fetchData_resume.
    destruct H as [-> | ->]; [|destruct samplesRes]; reflexivity. }
  cbn zeta. rewrite Hcatch. cbn.
  repeat rewrite <- app_assoc. repeat split; reflexivity.
Qed.

Lemma fetchData_rejection_applies_nothing_witness :
  let samplesRes :=
    Json {| samplesData_success := true; samplesData_samples := [sample_a] |} in
  let st := fetchData initial in
  let st' := fetchData_resume samplesRes Rejected st in
  samples st' = samples st /\
  stats st' = stats st /\
  log st' =
    log st ++
    [ SetNotification
        (Some {| message := "Error connecting to Firewall API"; type := "error" |});
      SetTimeout (clock st + 3000);
      SetLoading false ] /\
  notification st' =
    Some {| message := "Error connecting to Firewall API"; type := "error" |} /\
  loading st' = false.
Proof.
  apply (fetchData_rejection_applies_nothing
           (Json {| samplesData_success := true; samplesData_samples := [sample_a] |})
           Rejected (fetchData initial)).
  right. reflexivity.
Defined.

(** C1 as stated fails: on the first load the samples call succeeds with
    one sample and the stats call rejects; the queue is not populated. *)
Lemma fetchData_drops_samples_when_stats_rejects :
  let st :=
    run [ Mount;
          SettleFetchData 0
            (Json {| samplesData_success := true; samplesData_samples := [sample_a] |})
            Rejected ]
        initial in
  samples st = [] /\ samples st <> [sample_a].
Proof. vm_compute. split; [reflexivity | discriminate]. Qed.

(** With two well-formed replies each slice follows its own [success]
    flag, and nothing is notified. *)
Lemma fetchData_slices_follow_their_flags
    (samplesData : LoadSamplesReply) (statsData : StatsReply) (st : State) :
  let st' := fetchData_resume (Json samplesData) (Json statsData) st in
  samples st' =
    (if samplesData_success samplesData
     then samplesData_samples samplesData else samples st) /\
  stats st' =
    (if statsData_success statsData
     then Some (statsData_stats statsData) else stats st) /\
  notification st' = notification st.
Proof.
  cbn. destruct (samplesData_success samplesData),
         (statsData_success statsData); cbn; repeat split; reflexivity.
Qed.

(** ** Notifications and their timers *)

(** *** What [elapse] and [showNotification] leave behind *)

Lemma fire_notification (due : list Z) st :
  notification (fold_left (fun st _ => setNotification None st) due st) =
  match due with [] => notification st | _ :: _ => None end.
Proof.
  revert st. induction due as [|d due IH]; intros st; [reflexivity|].
  cbn [fold_left]. rewrite IH. destruct due; reflexivity.
Qed.

Lemma fire_timeouts (due : list Z) st :
  timeouts (fold_left (fun st _ => setNotification None st) due st) = timeouts st /\
  clock (fold_left (fun st _ => setNotification None st) due st) = clock st.
Proof.
  revert st. induction due as [|d due IH]; intros st; [split; reflexivity|].
  cbn [fold_left]. destruct (IH (setNotification None st)) as [-> ->].
  split; reflexivity.
Qed.

Lemma filter_nil_existsb {A} (f : A -> bool) (l : list A) :
  match filter f l with [] => existsb f l = false | _ :: _ => existsb f l = true end.
Proof.
  induction l as [|x l IH]; cbn; [reflexivity|].
  destruct (f x); cbn; [reflexivity|exact IH].
Qed.

Lemma elapse_notification t st :
  notification (elapse t st) =
  if existsb (fun d => d <=? t) (timeouts st) then None else notification st.
Proof.
  unfold elapse. rewrite fire_notification.
  pose proof (filter_nil_existsb (fun d => d <=? t) (timeouts st)) as H.
  destruct (filter (fun d => d <=? t) (timeouts st)); rewrite H; reflexivity.
Qed.

Lemma elapse_timeouts t st :
  timeouts (elapse t st) = filter (fun d => negb (d <=? t)) (timeouts st).
Proof. unfold elapse. rewrite (proj1 (fire_timeouts _ _)). reflexivity. Qed.

Lemma elapse_clock t st : clock (elapse t st) = Z.max (clock st) t.
Proof. unfold elapse. rewrite (proj2 (fire_timeouts _ _)). reflexivity. Qed.

Lemma showNotification_timeouts msg ty st :
  timeouts (showNotification msg ty st) = timeouts st ++ [clock st + 3000].
Proof. reflexivity. Qed.

Lemma showNotification_clock msg ty st :
  clock (showNotification msg ty st) = clock st.
Proof. reflexivity. Qed.

Lemma Zle_imp_le_bool_false (a b : Z) : b < a -> (a <=? b) = false.
Proof. intros H. apply Z.leb_gt. exact H. Qed.

(** C2, as the code has it: a notification arms its own timer and no timer
    is ever cancelled.  With no timer pending, a first notification at
    time [clock st] and a second one at time [tB] before the first
    expires: the second is visible until the first one's timer fires,
    3000 units after the first, and from then on the slot is empty. *)
Theorem second_notification_cleared_by_first_timer
    (msgA tyA msgB tyB : string) (tB : Z) (st : State) :
  timeouts st = [] ->
  clock st <= tB < clock st + 3000 ->
  let st' :=
    st |> showNotification msgA tyA
       |> elapse tB
       |> showNotification msgB tyB in
  (forall t, tB <= t < clock st + 3000 ->
     notification (elapse t st') = Some {| message := msgB; type := tyB |}) /\
  (forall t, clock st + 3000 <= t -> notification (elapse t st') = None).
Proof.
  intros Hnone Hlt st'.
  assert (Hts : timeouts st' = [clock st + 3000; Z.max (clock st) tB + 3000]).
  { unfold st'. rewrite showNotification_timeouts, elapse_timeouts, elapse_clock.
    rewrite showNotification_timeouts, showNotification_clock, Hnone.
    cbn [app filter]. rewrite Zle_imp_le_bool_false by lia. reflexivity. }
  assert (Hn : notification st' = Some {| message := msgB; type := tyB |})
    by reflexivity.
  split; intros t Ht; rewrite elapse_notification, Hts, Hn; cbn [existsb].
  - rewrite !Zle_imp_le_bool_false by lia. reflexivity.
  - rewrite (Zle_imp_le_bool _ _ Ht). reflexivity.
Qed.

Lemma second_notification_cleared_by_first_timer_witness :
  let st' :=
    initial |> showNotification "A" "success"
            |> elapse 1000
            |> showNotification "B" "success" in
  (forall t, 1000 <= t < clock initial + 3000 ->
     notification (elapse t st') = Some {| message := "B"; type := "success" |}) /\
  (forall t, clock initial + 3000 <= t -> notification (elapse t st') = None).
Proof.
  apply (second_notification_cleared_by_first_timer
           "A" "success" "B" "success" 1000 initial).
  - reflexivity.
  - cbn. lia.
Defined.

(** C2 as stated fails: A is shown at time 0 and B at time 1000; at time
    3001 the slot is already empty, A's timer having cleared B. *)
Lemma rearm_example_B_gone_at_3001 :
  let st :=
    initial |> showNotification "A" "success"
            |> elapse 1000
            |> showNotification "B" "success" in
  notification (elapse 2999 st) = Some {| message := "B"; type := "success" |} /\
  notification (elapse 3001 st) = None /\
  notification (elapse 3001 st) <> Some {| message := "B"; type := "success" |} /\
  notification (elapse 4001 st) = None.
Proof. vm_compute. repeat split; try reflexivity. discriminate. Qed.

(** ** The action area *)

Lemma correction_options_cases (s : Sample) :
  In (predicted_action s) [0; 1; 2] ->
  (predicted_action s = 0 /\ correction_options s = [1; 2]) \/
  (predicted_action s = 1 /\ correction_options s = [0; 2]) \/
  (predicted_action s = 2 /\ correction_options s = [0; 1]).
Proof.
  unfold correction_options. cbn [In].
  intros [H | [H | [H | []]]]; rewrite <- H; cbn; auto.
Qed.

Lemma handleReview_log isCorrect correctedAction s rest st :
  samples st = s :: rest ->
  log (handleReview isCorrect correctedAction st) =
  log st ++ [ SetProcessing true;
              Fetch (POST_review (review_body s isCorrect correctedAction)) ].
Proof.
  intros Hq. unfold handleReview. rewrite Hq. cbn.
  rewrite <- app_assoc. reflexivity.
Qed.

Lemma currentSample_head s st :
  currentSample st = Some s -> exists rest, samples st = s :: rest.
Proof.
  unfold currentSample. destruct (samples st) as [|s' rest]; cbn; [discriminate|].
  intros [= ->]. eauto.
Qed.

(** C7: in correction mode, for a head sample whose [predicted_action] is
    0, 1 or 2, the panel offers exactly the two other actions: two
    distinct choices, each one of 0, 1, 2 and none the predicted one; the
    buttons that are live are these two; and a click on one sends the
    review of the head sample with [is_correct: false] and
    [corrected_action] the chosen action. *)
Theorem correction_panel_offers_the_other_two (s : Sample) (st : State) :
  loading st = false ->
  correctionMode st = true ->
  currentSample st = Some s ->
  In (predicted_action s) [0; 1; 2] ->
  List.length (correction_options s) = 2%nat /\
  NoDup (correction_options s) /\
  (forall a, In a (correction_options s) <->
             In a [0; 1; 2] /\ a <> predicted_action s) /\
  (forall a, enabled (btn_option a) st = true <-> In a (correction_options s)) /\
  (forall a, In a (correction_options s) ->
     log (step (Click (btn_option a)) st) =
     log st ++
     [ SetProcessing true;
       Fetch (POST_review
                [ ("sample", JsSample s);
                  ("is_correct", JsBool false);
                  ("corrected_action", JsNumber a) ]) ]).
Proof.
  intros Hl Hc Hs Hp.
  assert (Hen : forall a, enabled (btn_option a) st = true <->
                          In a (correction_options s)).
  { intros a. unfold enabled. rewrite Hl, Hs, Hc. cbn [negb].
    rewrite existsb_exists. split.
    - intros (x & Hx & Heq). apply Z.eqb_eq in Heq. subst. exact Hx.
    - intros Hin. exists a. split; [exact Hin | apply Z.eqb_refl]. }
  destruct (currentSample_head _ _ Hs) as [rest Hq].
  split; [|split; [|split; [|split]]].
  - destruct (correction_options_cases s Hp) as [[_ ->] | [[_ ->] | [_ ->]]];
      reflexivity.
  - destruct (correction_options_cases s Hp) as [[_ ->] | [[_ ->] | [_ ->]]];
      repeat constructor; cbn; intuition discriminate.
  - intros a.
    destruct (correction_options_cases s Hp) as [[-> ->] | [[-> ->] | [-> ->]]];
      cbn; intuition (subst; try discriminate; auto).
  - exact Hen.
  - intros a Hin. cbn [step]. rewrite (proj2 (Hen a) Hin). cbn [onClick].
    rewrite (handleReview_log _ _ _ _ _ Hq). reflexivity.
Qed.

Lemma correction_panel_offers_the_other_two_witness :
  let s := sample_a in
  let st := step (Click btn_reject) loaded in
  List.length (correction_options s) = 2%nat /\
  NoDup (correction_options s) /\
  (forall a, In a (correction_options s) <->
             In a [0; 1; 2] /\ a <> predicted_action s) /\
  (forall a, enabled (btn_option a) st = true <-> In a (correction_options s)) /\
  (forall a, In a (correction_options s) ->
     log (step (Click (btn_option a)) st) =
     log st ++
     [ SetProcessing true;
       Fetch (POST_review
                [ ("sample", JsSample s);
                  ("is_correct", JsBool false);
                  ("corrected_action", JsNumber a) ]) ]).
Proof.
  apply (correction_panel_offers_the_other_two
           sample_a (step (Click btn_reject) loaded)).
  - reflexivity.
  - reflexivity.
  - reflexivity.
  - cbn. auto.
Defined.

(** C9, as the code has it: a confirm from the direct state sends the
    review of the head sample with [is_correct: true] and with the key
    [corrected_action] written in the body, its value [null]. *)
Theorem confirm_sends_null_corrected_action (s : Sample) (st : State) :
  loading st = false ->
  correctionMode st = false ->
  processing st = false ->
  currentSample st = Some s ->
  let body :=
    [ ("sample", JsSample s);
      ("is_correct", JsBool true);
      ("corrected_action", JsNull) ] in
  log (step (Click btn_confirm) st) =
    log st ++ [ SetProcessing true; Fetch (POST_review body) ] /\
  field "is_correct" body = Some (JsBool true) /\
  field "corrected_action" body = Some JsNull.
Proof.
  intros Hl Hc Hp Hs.
  destruct (currentSample_head _ _ Hs) as [rest Hq].
  cbn zeta. split; [|split; reflexivity].
  cbn [step]. unfold enabled. rewrite Hl, Hs, Hc, Hp. cbn [negb onClick].
  rewrite (handleReview_log _ _ _ _ _ Hq). reflexivity.
Qed.

Lemma confirm_sends_null_corrected_action_witness :
  let body :=
    [ ("sample", JsSample sample_a);
      ("is_correct", JsBool true);
      ("corrected_action", JsNull) ] in
  log (step (Click btn_confirm) loaded) =
    log loaded ++ [ SetProcessing true; Fetch (POST_review body) ] /\
  field "is_correct" body = Some (JsBool true) /\
  field "corrected_action" body = Some JsNull.
Proof.
  apply (confirm_sends_null_corrected_action sample_a loaded);
    reflexivity.
Defined.

(** C9 as stated fails: in the body that a confirm sends, the key
    [corrected_action] is not absent; it is there, with the value
    [null]. *)
Lemma confirm_body_has_corrected_action_key :
  exists body,
    last (log (step (Click btn_confirm) loaded)) (Fetch GET_stats) =
      Fetch (POST_review body) /\
    field "corrected_action" body <> None.
Proof.
  eexists. split; [vm_compute; reflexivity|]. cbn. discriminate.
Qed.

(** ** Reviews in flight *)

(** In the direct state the two buttons are disabled while a review is
    being processed: a click on either does nothing. *)
Lemma direct_buttons_dead_while_processing (b : Button) (st : State) :
  correctionMode st = false ->
  processing st = true ->
  step (Click b) st = st.
Proof.
  intros Hc Hp. cbn. unfold enabled. rewrite Hc, Hp. cbn.
  destruct (loading st); [reflexivity|].
  destruct (currentSample st); [|reflexivity].
  destruct b; reflexivity.
Qed.

(** [handleReview] itself never reads [processing]. *)
Lemma handleReview_ignores_processing
    (isCorrect : bool) (correctedAction : JsValue) (s : Sample)
    (rest : list Sample) (st : State) :
  samples st = s :: rest ->
  inflight (handleReview isCorrect correctedAction st) =
  inflight st ++ [handleReview_await_review isCorrect].
Proof. intros Hq. unfold handleReview. rewrite Hq. reflexivity. Qed.

(** C3 fails in the correction panel, whose option buttons are not
    disabled while [processing]: with the review of the head sample in
    flight ("set to ALLOW"), a click on the other option sends a second
    review of the same head sample. *)
Theorem second_review_sent_while_processing :
  let st := run [ Click btn_reject; Click (btn_option 0) ] loaded in
  let st' := step (Click (btn_option 1)) st in
  processing st = true /\
  inflight st = [ handleReview_await_review false ] /\
  inflight st' = [ handleReview_await_review false;
                   handleReview_await_review false ] /\
  log st' =
    log st ++
    [ SetProcessing true;
      Fetch (POST_review
               [ ("sample", JsSample sample_a);
                 ("is_correct", JsBool false);
                 ("corrected_action", JsNumber 1) ]) ].
Proof. vm_compute. repeat split; reflexivity. Qed.

(** What follows when the gateway acknowledges both: each one drops the
    head of the queue as it then is, so [sample_b] leaves the queue
    without having been reviewed. *)
Lemma two_acknowledgements_drop_two_samples :
  let ack := Json {| result_success := true; result_message := "Updated" |} in
  let st :=
    run [ Click btn_reject; Click (btn_option 0); Click (btn_option 1);
          SettleReview 0 ack; SettleReview 0 ack ]
        loaded in
  samples loaded = [sample_a; sample_b] /\ samples st = [].
Proof. vm_compute. split; reflexivity. Qed.

(** * Further properties of the component *)

(** ** What the timers leave alone *)

Lemma fire_keeps (due : list Z) st :
  let st' := fold_left (fun st _ => setNotification None st) due st in
  stats st' = stats st /\ loading st' = loading st /\
  processing st' = processing st /\ correctionMode st' = correctionMode st /\
  inflight st' = inflight st.
Proof.
  revert st. induction due as [|d due IH]; intros st; cbn; [auto 6|].
  destruct (IH (setNotification None st)) as (-> & -> & -> & -> & ->).
  auto 6.
Qed.

Lemma elapse_keeps t st :
  stats (elapse t st) = stats st /\ loading (elapse t st) = loading st /\
  processing (elapse t st) = processing st /\
  correctionMode (elapse t st) = correctionMode st /\
  inflight (elapse t st) = inflight st.
Proof.
  unfold elapse.
  destruct (fire_keeps (filter (fun d => d <=? t) (timeouts st))
              (set_clock (Z.max (clock st) t)
                 (filter (fun d => negb (d <=? t)) (timeouts st)) st))
    as (-> & -> & -> & -> & ->).
  auto 6.
Qed.

(** ** The loading screen *)

Lemma step_loading e st : loading st = false -> loading (step e st) = false.
Proof.
  intros H. destruct e as [ | | b | t | i sr tr | i res | i res ].
  - exact H.
  - exact H.
  - cbn. destruct (enabled b st); [|exact H].
    destruct b; cbn; try exact H; unfold handleReview;
      destruct (samples st); exact H.
  - cbn. rewrite (proj1 (proj2 (elapse_keeps t st))). exact H.
  - cbn. destruct (nth_error (inflight st) i) as [[ | | ]|]; auto.
  - cbn. destruct (nth_error (inflight st) i) as [[ | isCorrect | ]|]; auto.
    destruct res as [|result]; [exact H|].
    cbn. destruct (result_success result); exact H.
  - cbn. destruct (nth_error (inflight st) i) as [[ | | ]|]; auto.
    destruct res as [|statsData]; [exact H|].
    cbn. destruct (statsData_success statsData); exact H.
Qed.

Lemma dashboard_step_loading e d :
  loading (component d) = false ->
  loading (component (dashboard_step e d)) = false.
Proof.
  intros H. destruct e as [e | | res]; cbn.
  - apply step_loading, H.
  - destruct (retrain_btn_enabled (component d)); exact H.
  - destruct (retraining_inflight d); [exact H|].
    destruct res; exact H.
Qed.

Lemma dashboard_run_loading es d :
  loading (component d) = false ->
  loading (component (dashboard_run es d)) = false.
Proof.
  revert d. induction es as [|e es IH]; intros d H; [exact H|].
  cbn. apply IH, dashboard_step_loading, H.
Qed.

(** X2: once a [fetchData] has settled, whatever its two outcomes, the
    loading screen is gone, and nothing that happens afterwards (clicks,
    refreshes, replies, timers, retraining) brings it back. *)
Theorem loading_screen_never_returns
    (samplesRes : Outcome LoadSamplesReply) (statsRes : Outcome StatsReply)
    (es : list DashboardEvent) (d : Dashboard) :
  loading
    (component
       (dashboard_run es (lift (fetchData_resume samplesRes statsRes) d)))
  = false.
Proof. apply dashboard_run_loading. reflexivity. Qed.

(** ** What changes the queue and the stats *)

Lemma fetchData_resume_samples samplesRes statsRes st :
  samples (fetchData_resume samplesRes statsRes st) =
  match samplesRes, statsRes with
  | Json samplesData, Json _ =>
      if samplesData_success samplesData
      then samplesData_samples samplesData else samples st
  | _, _ => samples st
  end.
Proof.
  destruct samplesRes as [|samplesData], statsRes as [|statsData]; cbn; auto.
  destruct (samplesData_success samplesData),
    (statsData_success statsData); reflexivity.
Qed.

Lemma fetchData_resume_stats samplesRes statsRes st :
  stats (fetchData_resume samplesRes statsRes st) =
  match samplesRes, statsRes with
  | Json _, Json statsData =>
      if statsData_success statsData
      then Some (statsData_stats statsData) else stats st
  | _, _ => stats st
  end.
Proof.
  destruct samplesRes as [|samplesData], statsRes as [|statsData]; cbn; auto.
  destruct (samplesData_success samplesData),
    (statsData_success statsData); reflexivity.
Qed.

Lemma onClick_stats b st : stats (onClick b st) = stats st.
Proof.
  destruct b; cbn; auto; unfold handleReview; destruct (samples st); auto.
Qed.

Lemma resume_review_stats isCorrect res st :
  stats (handleReview_resume_review isCorrect res st) = stats st.
Proof.
  destruct res as [|result]; cbn; auto.
  destruct (result_success result); reflexivity.
Qed.

Lemma resume_stats_stats res st :
  stats (handleReview_resume_stats res st) =
  match res with
  | Json statsData =>
      if statsData_success statsData
      then Some (statsData_stats statsData) else stats st
  | Rejected => stats st
  end.
Proof.
  destruct res as [|statsData]; cbn; auto.
  destruct (statsData_success statsData); reflexivity.
Qed.

Lemma retraining_keeps res d :
  samples (component (triggerRetraining_resume res d)) = samples (component d) /\
  stats (component (triggerRetraining_resume res d)) = stats (component d).
Proof. destruct res; split; reflexivity. Qed.

(** X3: the queue changes at two places only.  Over every event of the
    dashboard, a step that leaves the queue different is either a review
    reply with [success] true, which drops the head, or the settling of a
    [fetchData] whose two replies are well-formed and whose samples reply
    has [success] true, which installs that reply's list as it is.
    Clicks, timers, stats replies, rejected or refused loads and the
    retraining trigger never touch it. *)
Theorem queue_changes_only_on_ack_or_load (e : DashboardEvent) (d : Dashboard) :
  samples (component (dashboard_step e d)) <> samples (component d) ->
  (exists i result,
     e = AppEvent (SettleReview i (Json result)) /\
     result_success result = true /\
     samples (component (dashboard_step e d)) = tl (samples (component d))) \/
  (exists i samplesData statsData,
     e = AppEvent (SettleFetchData i (Json samplesData) (Json statsData)) /\
     samplesData_success samplesData = true /\
     samples (component (dashboard_step e d)) = samplesData_samples samplesData).
Proof.
  intros Hch. set (st := component d) in *.
  destruct e as [e | | res]; cbn in Hch |- *; fold st in Hch |- *.
  - destruct e as [ | | b | t | i sr tr | i res | i res ]; cbn in Hch |- *.
    + exfalso. apply Hch. reflexivity.
    + exfalso. apply Hch. reflexivity.
    + exfalso. apply Hch.
      destruct (enabled b st); auto using onClick_samples.
    + exfalso. apply Hch. apply elapse_samples.
    + destruct (nth_error (inflight st) i) as [[ | | ]|];
        try (exfalso; apply Hch; reflexivity).
      rewrite fetchData_resume_samples, resume_samples in Hch |- *.
      destruct sr as [|samplesData]; [exfalso; auto|].
      destruct tr as [|statsData]; [exfalso; auto|].
      destruct (samplesData_success samplesData) eqn:Hs; [|exfalso; auto].
      right. exists i, samplesData, statsData. auto.
    + destruct (nth_error (inflight st) i) as [[ | isCorrect | ]|];
        try (exfalso; apply Hch; reflexivity).
      rewrite resume_review_samples, resume_samples in Hch |- *.
      destruct res as [|result]; [exfalso; auto|].
      destruct (result_success result) eqn:Hs; [|exfalso; auto].
      left. exists i, result. auto.
    + exfalso. apply Hch.
      destruct (nth_error (inflight st) i) as [[ | | ]|]; auto.
      rewrite resume_stats_samples. reflexivity.
  - exfalso. apply Hch. destruct (retrain_btn_enabled st); reflexivity.
  - exfalso. apply Hch. destruct (retraining_inflight d); [reflexivity|].
    apply (proj1 (retraining_keeps res d)).
Qed.

Lemma queue_changes_only_on_ack_or_load_witness :
  let e :=
    AppEvent
      (SettleFetchData 0
         (Json {| samplesData_success := true;
                  samplesData_samples := [sample_b] |})
         (Json {| statsData_success := false; statsData_stats := stats_80 |})) in
  let d := dashboard_run [AppEvent IntervalTick] (lift (fun _ => loaded) dashboard_initial) in
  (exists i result,
     e = AppEvent (SettleReview i (Json result)) /\
     result_success result = true /\
     samples (component (dashboard_step e d)) = tl (samples (component d))) \/
  (exists i samplesData statsData,
     e = AppEvent (SettleFetchData i (Json samplesData) (Json statsData)) /\
     samplesData_success samplesData = true /\
     samples (component (dashboard_step e d)) = samplesData_samples samplesData).
Proof.
  apply queue_changes_only_on_ack_or_load.
  vm_compute. discriminate.
Defined.

(** X4: the stats are only ever replaced as a whole, by the [stats] of a
    stats reply whose [success] is true: one that settles a [fetchData]
    together with a well-formed samples reply, or one that settles the
    refresh of [handleReview].  No other event of the dashboard changes
    them. *)
Theorem stats_change_only_on_successful_stats_reply
    (e : DashboardEvent) (d : Dashboard) :
  stats (component (dashboard_step e d)) <> stats (component d) ->
  exists i statsData,
    statsData_success statsData = true /\
    stats (component (dashboard_step e d)) = Some (statsData_stats statsData) /\
    ((exists samplesData,
        e = AppEvent (SettleFetchData i (Json samplesData) (Json statsData))) \/
     e = AppEvent (SettleStats i (Json statsData))).
Proof.
  intros Hch. set (st := component d) in *.
  destruct e as [e | | res]; cbn in Hch |- *; fold st in Hch |- *.
  - destruct e as [ | | b | t | i sr tr | i res | i res ]; cbn in Hch |- *.
    + exfalso. apply Hch. reflexivity.
    + exfalso. apply Hch. reflexivity.
    + exfalso. apply Hch.
      destruct (enabled b st); auto using onClick_stats.
    + exfalso. apply Hch. apply (proj1 (elapse_keeps t st)).
    + destruct (nth_error (inflight st) i) as [[ | | ]|];
        try (exfalso; apply Hch; reflexivity).
      rewrite fetchData_resume_stats in Hch |- *. cbn in Hch |- *.
      destruct sr as [|samplesData]; [exfalso; auto|].
      destruct tr as [|statsData]; [exfalso; auto|].
      destruct (statsData_success statsData) eqn:Hs; [|exfalso; auto].
      exists i, statsData. eauto.
    + exfalso. apply Hch.
      destruct (nth_error (inflight st) i) as [[ | isCorrect | ]|]; auto.
      rewrite resume_review_stats. reflexivity.
    + destruct (nth_error (inflight st) i) as [[ | | ]|];
        try (exfalso; apply Hch; reflexivity).
      rewrite resume_stats_stats in Hch |- *. cbn in Hch |- *.
      destruct res as [|statsData]; [exfalso; auto|].
      destruct (statsData_success statsData) eqn:Hs; [|exfalso; auto].
      exists i, statsData. auto.
  - exfalso. apply Hch. destruct (retrain_btn_enabled st); reflexivity.
  - exfalso. apply Hch. destruct (retraining_inflight d); [reflexivity|].
    apply (proj2 (retraining_keeps res d)).
Qed.

Lemma stats_change_only_on_successful_stats_reply_witness :
  let e :=
    AppEvent
      (SettleFetchData 0 (Json {| samplesData_success := false;
                                  samplesData_samples := [] |})
         (Json {| statsData_success := true; statsData_stats := stats_80 |})) in
  let d := dashboard_run [AppEvent Mount] dashboard_initial in
  exists i statsData,
    statsData_success statsData = true /\
    stats (component (dashboard_step e d)) = Some (statsData_stats statsData) /\
    ((exists samplesData,
        e = AppEvent (SettleFetchData i (Json samplesData) (Json statsData))) \/
     e = AppEvent (SettleStats i (Json statsData))).
Proof.
  apply stats_change_only_on_successful_stats_reply.
  vm_compute. discriminate.
Defined.

(** ** The processing latch *)

Lemma remove_nth_other_frame (i : nat) (l : list Pending) (p : Pending) :
  nth_error l i = Some p ->
  is_review_frame p = false ->
  existsb is_review_frame (remove_nth i l) = existsb is_review_frame l.
Proof.
  revert i. induction l as [|q l IH]; intros [|i] Hn Hp; cbn in *;
    try discriminate.
  - injection Hn as ->. rewrite Hp. reflexivity.
  - rewrite (IH i Hn Hp). reflexivity.
Qed.

Lemma latch_backed_same st st' :
  processing st' = processing st ->
  existsb is_review_frame (inflight st') = existsb is_review_frame (inflight st) ->
  latch_backed st -> latch_backed st'.
Proof. unfold latch_backed. intros -> ->. auto. Qed.

Lemma fetchData_latch st : latch_backed st -> latch_backed (fetchData st).
Proof.
  apply latch_backed_same; [reflexivity|].
  cbn. rewrite existsb_app. cbn. rewrite !orb_false_r. reflexivity.
Qed.

Lemma showNotification_latch msg ty st :
  latch_backed st -> latch_backed (showNotification msg ty st).
Proof. apply latch_backed_same; reflexivity. Qed.

Lemma handleReview_latch isCorrect correctedAction st :
  latch_backed st -> latch_backed (handleReview isCorrect correctedAction st).
Proof.
  intros H. unfold handleReview. destruct (samples st); [exact H|].
  intros _. cbn. rewrite existsb_app. cbn. apply orb_true_r.
Qed.

Lemma step_latch e st : latch_backed st -> latch_backed (step e st).
Proof.
  intros H. destruct e as [ | | b | t | i sr tr | i res | i res ]; cbn.
  - apply fetchData_latch, H.
  - apply fetchData_latch, H.
  - destruct (enabled b st); [|exact H].
    destruct b; cbn; auto using handleReview_latch.
  - revert H. apply latch_backed_same.
    + apply (elapse_keeps t st).
    + rewrite (proj2 (proj2 (proj2 (proj2 (elapse_keeps t st))))). reflexivity.
  - destruct (nth_error (inflight st) i) as [[ | | ]|] eqn:Hn; try exact H.
    revert H. apply latch_backed_same.
    + destruct sr as [|samplesData], tr as [|statsData]; cbn; auto.
      destruct (samplesData_success samplesData),
        (statsData_success statsData); reflexivity.
    + rewrite <- (remove_nth_other_frame i (inflight st) _ Hn eq_refl).
      destruct sr as [|samplesData], tr as [|statsData]; cbn; auto.
      destruct (samplesData_success samplesData),
        (statsData_success statsData); reflexivity.
  - destruct (nth_error (inflight st) i) as [[ | isCorrect | ]|]; try exact H.
    destruct res as [|result]; [intros Hp; discriminate Hp|].
    cbn. destruct (result_success result); [|intros Hp; discriminate Hp].
    intros _. cbn. rewrite existsb_app. cbn. apply orb_true_r.
  - destruct (nth_error (inflight st) i) as [[ | | ]|]; try exact H.
    destruct res as [|statsData]; [intros Hp; discriminate Hp|].
    cbn. destruct (statsData_success statsData); intros Hp; discriminate Hp.
Qed.

Lemma dashboard_step_latch e d :
  latch_backed (component d) -> latch_backed (component (dashboard_step e d)).
Proof.
  intros H. destruct e as [e | | res]; cbn.
  - apply step_latch, H.
  - destruct (retrain_btn_enabled (component d)); exact H.
  - destruct (retraining_inflight d); [exact H|].
    destruct res; cbn.
    + apply showNotification_latch, H.
    + apply fetchData_latch, showNotification_latch, H.
Qed.

Lemma dashboard_run_latch es d :
  latch_backed (component d) -> latch_backed (component (dashboard_run es d)).
Proof.
  revert d. induction es as [|e es IH]; intros d H; [exact H|].
  cbn. apply IH, dashboard_step_latch, H.
Qed.

(** X5: the latch is never held for nothing.  After any run of the
    dashboard from its mounting, when [processing] is true some
    [handleReview] is suspended at one of its two gateway calls: the
    direct buttons are disabled only while a reply is still due, and the
    reply, whatever it is, will clear the latch. *)
Theorem processing_means_review_in_flight (es : list DashboardEvent) :
  processing (component (dashboard_run es dashboard_initial)) = true ->
  existsb is_review_frame
    (inflight (component (dashboard_run es dashboard_initial))) = true.
Proof.
  apply (dashboard_run_latch es dashboard_initial).
  intros H. discriminate H.
Qed.

Lemma processing_means_review_in_flight_witness :
  existsb is_review_frame
    (inflight
       (component
          (dashboard_run
             [ AppEvent Mount;
               AppEvent
                 (SettleFetchData 0
                    (Json {| samplesData_success := true;
                             samplesData_samples := [sample_a] |})
                    Rejected);
               AppEvent IntervalTick;
               AppEvent
                 (SettleFetchData 0
                    (Json {| samplesData_success := true;
                             samplesData_samples := [sample_a] |})
                    (Json {| statsData_success := true;
                             statsData_stats := stats_80 |}));
               AppEvent (Click btn_confirm) ]
             dashboard_initial))) = true.
Proof.
  apply processing_means_review_in_flight.
  vm_compute. reflexivity.
Defined.

(** ** Reviewing the queue in order *)

Lemma confirm_round_effect msg statsRes st :
  loading st = false -> processing st = false ->
  correctionMode st = false -> inflight st = [] ->
  let st' := run (confirm_round msg statsRes) st in
  samples st' = tl (samples st) /\
  loading st' = false /\ processing st' = false /\
  correctionMode st' = false /\ inflight st' = [].
Proof.
  intros Hl Hp Hc Hi.
  destruct st as [q s l p c n now ts fl lg]. cbn in Hl, Hp, Hc, Hi. subst.
  destruct q as [|x rest]; [vm_compute; auto 6|].
  destruct statsRes as [|[[|] newStats]]; vm_compute; auto 6.
Qed.

Lemma run_app (es1 es2 : list Event) (st : State) :
  run (es1 ++ es2) st = run es2 (run es1 st).
Proof. apply fold_left_app. Qed.

Lemma skipn_S_tl {A} (n : nat) (l : list A) : skipn (S n) l = skipn n (tl l).
Proof. destruct l; cbn; [rewrite skipn_nil|]; reflexivity. Qed.

(** X6: the queue is reviewed first in, first out.  From an idle
    dashboard in the direct state with nothing in flight, [n] rounds of
    confirm, acknowledgement and stats reply (whatever the messages, and
    whether each stats call succeeds, is refused or rejects) leave exactly
    the queue without its first [n] samples, in their order, and the
    dashboard idle again; as many rounds as there are samples, or more,
    leave it empty. *)
Theorem confirming_in_order_drains_the_queue
    (rounds : list (string * Outcome StatsReply)) (st : State) :
  loading st = false -> processing st = false ->
  correctionMode st = false -> inflight st = [] ->
  let st' := run (confirm_rounds rounds) st in
  samples st' = skipn (List.length rounds) (samples st) /\
  ((List.length (samples st) <= List.length rounds)%nat -> samples st' = []) /\
  loading st' = false /\ processing st' = false /\
  correctionMode st' = false /\ inflight st' = [].
Proof.
  intros Hl Hp Hc Hi st'.
  assert (H : samples st' = skipn (List.length rounds) (samples st) /\
              loading st' = false /\ processing st' = false /\
              correctionMode st' = false /\ inflight st' = []).
  { subst st'. revert st Hl Hp Hc Hi.
    induction rounds as [|[msg statsRes] rounds IH]; intros st Hl Hp Hc Hi;
      [cbn; auto 6|].
    change (confirm_rounds ((msg, statsRes) :: rounds))
      with (confirm_round msg statsRes ++ confirm_rounds rounds).
    rewrite run_app.
    destruct (confirm_round_effect msg statsRes st Hl Hp Hc Hi)
      as (Hq & Hl' & Hp' & Hc' & Hi').
    destruct (IH _ Hl' Hp' Hc' Hi') as (IHq & IHrest).
    split; [|exact IHrest].
    rewrite IHq, Hq. cbn [List.length]. rewrite skipn_S_tl. reflexivity. }
  destruct H as (Hq & Hrest). split; [exact Hq|]. split; [|exact Hrest].
  intros Hlen. rewrite Hq. apply skipn_all2. exact Hlen.
Qed.

Lemma confirming_in_order_drains_the_queue_witness :
  let rounds :=
    [ ("Updated", Json {| statsData_success := true; statsData_stats := stats_80 |});
      ("Updated", Rejected) ] in
  let st' := run (confirm_rounds rounds) loaded in
  samples st' = skipn (List.length rounds) (samples loaded) /\
  ((List.length (samples loaded) <= List.length rounds)%nat -> samples st' = []) /\
  loading st' = false /\ processing st' = false /\
  correctionMode st' = false /\ inflight st' = [].
Proof.
  apply (confirming_in_order_drains_the_queue
           [ ("Updated", Json {| statsData_success := true; statsData_stats := stats_80 |});
             ("Updated", Rejected) ]
           loaded); reflexivity.
Defined.

(** ** Clicks while a confirm is in flight *)

Lemma direct_click_dead_after_confirm (b : Button) (st : State) :
  is_direct_button b = true ->
  enabled btn_confirm st = true ->
  step (Click b) (step (Click btn_confirm) st) = step (Click btn_confirm) st.
Proof.
  intros Hb Hen. cbn [step]. rewrite Hen. cbn [onClick].
  unfold enabled in Hen.
  destruct (loading st) eqn:Hl; [discriminate|].
  unfold currentSample in Hen.
  destruct (samples st) as [|s rest] eqn:Hq; [discriminate|]. cbn in Hen.
  destruct (correctionMode st) eqn:Hc; [discriminate|]. cbn in Hen.
  unfold handleReview. rewrite Hq.
  unfold enabled, currentSample. cbn. rewrite Hl, Hq, Hc. cbn.
  destruct b; try discriminate Hb; reflexivity.
Qed.

Lemma direct_buttons_enabled_together (b : Button) (st : State) :
  is_direct_button b = true ->
  enabled b st = enabled btn_confirm st.
Proof.
  intros Hb. unfold enabled.
  destruct (loading st), (currentSample st), (correctionMode st); cbn;
    destruct b; try discriminate Hb; reflexivity.
Qed.

(** X9: single flight in the direct state.  A click on the confirm button
    followed by any number of clicks on the two direct buttons (confirm,
    incorrect prediction) does what the first click alone does: at most
    one review request leaves, and correction mode is not entered, until
    the reply arrives. *)
Theorem direct_clicks_after_confirm_do_nothing (bs : list Button) (st : State) :
  forallb is_direct_button bs = true ->
  run (map Click (btn_confirm :: bs)) st = step (Click btn_confirm) st.
Proof.
  intros Hbs. cbn [map run fold_left].
  induction bs as [|b bs IH]; [reflexivity|].
  cbn in Hbs. apply andb_prop in Hbs as [Hb Hbs].
  cbn [map fold_left].
  destruct (enabled btn_confirm st) eqn:Hen.
  - rewrite (direct_click_dead_after_confirm b st Hb Hen). exact (IH Hbs).
  - assert (Hdead : forall b', is_direct_button b' = true ->
                               step (Click b') st = st).
    { intros b' Hb'. cbn.
      rewrite (direct_buttons_enabled_together b' st Hb'), Hen. reflexivity. }
    rewrite (Hdead btn_confirm eq_refl) in IH |- *.
    rewrite (Hdead b Hb). exact (IH Hbs).
Qed.

Lemma direct_clicks_after_confirm_do_nothing_witness :
  run (map Click [btn_confirm; btn_confirm; btn_reject; btn_confirm]) loaded =
  step (Click btn_confirm) loaded.
Proof.
  apply (direct_clicks_after_confirm_do_nothing
           [btn_confirm; btn_reject; btn_confirm] loaded).
  reflexivity.
Defined.

(** ** A refresh while a review is in flight *)

(** X8: the acknowledgement dequeues the head of the queue as it is when
    it arrives.  When a refresh settles between the sending of a review of
    [s] and its acknowledgement, and installs the list [l], the
    acknowledgement removes the head of [l], whatever it is; the refresh
    itself leaves [processing] held. *)
Theorem acknowledgement_dequeues_the_current_head
    (isCorrect : bool) (correctedAction : JsValue) (msg : string)
    (s : Sample) (rest l : list Sample) (statsData : StatsReply) (st : State) :
  samples st = s :: rest ->
  let st1 := handleReview isCorrect correctedAction st in
  let st2 :=
    fetchData_resume
      (Json {| samplesData_success := true; samplesData_samples := l |})
      (Json statsData) st1 in
  let st3 :=
    handleReview_resume_review isCorrect
      (Json {| result_success := true; result_message := msg |}) st2 in
  log st1 =
    log st ++
    [ SetProcessing true;
      Fetch (POST_review (review_body s isCorrect correctedAction)) ] /\
  samples st2 = l /\
  processing st2 = true /\
  samples st3 = tl l.
Proof.
  intros Hq st1 st2 st3.
  split; [apply (handleReview_log _ _ _ _ _ Hq)|].
  assert (H2 : samples st2 = l).
  { unfold st2. rewrite fetchData_resume_samples. reflexivity. }
  split; [exact H2|]. split.
  - unfold st2, st1, handleReview. rewrite Hq.
    destruct (statsData_success statsData) eqn:Hs;
      unfold fetchData_resume; rewrite Hs; reflexivity.
  - unfold st3. rewrite resume_review_samples. cbn [result_success].
    rewrite H2. reflexivity.
Qed.

Lemma acknowledgement_dequeues_the_current_head_witness :
  let st1 := handleReview true JsNull loaded in
  let st2 :=
    fetchData_resume
      (Json {| samplesData_success := true; samplesData_samples := [sample_b] |})
      (Json {| statsData_success := true; statsData_stats := stats_80 |}) st1 in
  let st3 :=
    handleReview_resume_review true
      (Json {| result_success := true; result_message := "Updated" |}) st2 in
  log st1 =
    log loaded ++
    [ SetProcessing true;
      Fetch (POST_review (review_body sample_a true JsNull)) ] /\
  samples st2 = [sample_b] /\
  processing st2 = true /\
  samples st3 = tl [sample_b].
Proof.
  apply (acknowledgement_dequeues_the_current_head true JsNull "Updated"
           sample_a [sample_b] [sample_b]
           {| statsData_success := true; statsData_stats := stats_80 |} loaded).
  reflexivity.
Defined.

(** ** The correction options and the table of actions *)

(** X11: whatever the head sample's [predicted_action] is, in range or
    not, every action the correction panel offers has an entry in
    [ACTIONS], so its label can be shown, and differs from the predicted
    one. *)
Theorem correction_options_have_labels (s : Sample) (a : Z) :
  In a (correction_options s) ->
  (exists label, ACTIONS a = Some label) /\ a <> predicted_action s.
Proof.
  unfold correction_options. rewrite filter_In.
  intros [Hin Hneq]. split.
  - cbn in Hin. destruct Hin as [<- | [<- | [<- | []]]]; cbn; eauto.
  - apply negb_true_iff, Z.eqb_neq in Hneq. exact Hneq.
Qed.

Lemma correction_options_have_labels_witness :
  (exists label, ACTIONS 1 = Some label) /\ 1 <> predicted_action sample_a.
Proof.
  apply (correction_options_have_labels sample_a 1).
  cbn. auto.
Defined.

(** ** How long a notification stays *)

(** X7: a notification is visible exactly until the first armed timer is
    due, the timers of earlier notifications included: shown at time
    [clock st], it is still there at time [t] when neither one of the
    timers pending before nor its own (3000 units) is due by [t], and the
    slot is empty otherwise. *)
Theorem notification_visible_until_first_timer
    (msg ty : string) (t : Z) (st : State) :
  notification (elapse t (showNotification msg ty st)) =
  if existsb (fun d => d <=? t) (timeouts st) || (clock st + 3000 <=? t)
  then None
  else Some {| message := msg; type := ty |}.
Proof.
  rewrite elapse_notification, showNotification_timeouts, existsb_app.
  cbn [existsb]. rewrite orb_false_r. reflexivity.
Qed.

Lemma timers_sound_same st st' :
  notification st' = notification st ->
  timeouts st' = timeouts st ->
  clock st' = clock st ->
  timers_sound st -> timers_sound st'.
Proof. unfold timers_sound. intros -> -> ->. auto. Qed.

Lemma showNotification_sound msg ty st :
  timers_sound st -> timers_sound (showNotification msg ty st).
Proof.
  intros [_ HJ]. split.
  - intros _. rewrite showNotification_timeouts.
    destruct (timeouts st); discriminate.
  - rewrite showNotification_timeouts, showNotification_clock.
    apply Forall_app. split; [exact HJ|].
    constructor; [apply Z.le_refl|constructor].
Qed.

Lemma filter_none_due (t : Z) (l : list Z) :
  existsb (fun d => d <=? t) l = false ->
  filter (fun d => negb (d <=? t)) l = l.
Proof.
  induction l as [|d l IH]; cbn; [reflexivity|].
  intros H. apply orb_false_elim in H as [Hd Hl].
  rewrite Hd. cbn. rewrite (IH Hl). reflexivity.
Qed.

Lemma elapse_sound t st : timers_sound st -> timers_sound (elapse t st).
Proof.
  intros [HI HJ]. split.
  - rewrite elapse_notification, elapse_timeouts.
    destruct (existsb (fun d => d <=? t) (timeouts st)) eqn:E;
      [intros H; exfalso; apply H; reflexivity|].
    rewrite (filter_none_due t _ E). exact HI.
  - rewrite elapse_timeouts, elapse_clock.
    rewrite Forall_forall in HJ |- *.
    intros d Hd. apply filter_In in Hd as [Hd _].
    specialize (HJ d Hd). pose proof (Z.le_max_l (clock st) t) as Hmax.
    clear - HJ Hmax. lia.
Qed.

Lemma handleReview_sound isCorrect correctedAction st :
  timers_sound st -> timers_sound (handleReview isCorrect correctedAction st).
Proof.
  unfold handleReview. destruct (samples st); [auto|].
  apply timers_sound_same; reflexivity.
Qed.

Lemma fetchData_sound st : timers_sound st -> timers_sound (fetchData st).
Proof. apply timers_sound_same; reflexivity. Qed.

Lemma fetchData_resume_sound samplesRes statsRes st :
  timers_sound st -> timers_sound (fetchData_resume samplesRes statsRes st).
Proof.
  intros H.
  assert (Hcatch : timers_sound
            (setLoading false
               (showNotification "Error connecting to Firewall API" "error" st))).
  { apply (timers_sound_same
             (showNotification "Error connecting to Firewall API" "error" st));
      try reflexivity.
    apply showNotification_sound, H. }
  destruct samplesRes as [|samplesData]; [exact Hcatch|].
  destruct statsRes as [|statsData]; [exact Hcatch|].
  revert H. apply timers_sound_same;
    unfold fetchData_resume;
    destruct (samplesData_success samplesData),
      (statsData_success statsData); reflexivity.
Qed.

Lemma resume_review_sound isCorrect res st :
  timers_sound st -> timers_sound (handleReview_resume_review isCorrect res st).
Proof.
  intros H. destruct res as [|result]; cbn.
  - apply (timers_sound_same
             (showNotification "Failed to submit review" "error" st));
      try reflexivity.
    apply showNotification_sound, H.
  - destruct (result_success result).
    + apply (timers_sound_same
               (showNotification (result_message result)
                  (if isCorrect then "success" else "warning") st));
        try reflexivity.
      apply showNotification_sound, H.
    + revert H. apply timers_sound_same; reflexivity.
Qed.

Lemma resume_stats_sound res st :
  timers_sound st -> timers_sound (handleReview_resume_stats res st).
Proof.
  intros H. destruct res as [|statsData]; cbn.
  - apply (timers_sound_same
             (showNotification "Failed to submit review" "error" st));
      try reflexivity.
    apply showNotification_sound, H.
  - revert H. apply timers_sound_same;
      destruct (statsData_success statsData); reflexivity.
Qed.

Lemma step_sound e st : timers_sound st -> timers_sound (step e st).
Proof.
  intros H. destruct e as [ | | b | t | i sr tr | i res | i res ]; cbn.
  - apply fetchData_sound, H.
  - apply fetchData_sound, H.
  - destruct (enabled b st); [|exact H].
    destruct b; cbn; auto using handleReview_sound;
      revert H; apply timers_sound_same; reflexivity.
  - apply elapse_sound, H.
  - destruct (nth_error (inflight st) i) as [[ | | ]|]; try exact H.
    apply fetchData_resume_sound. revert H.
    apply timers_sound_same; reflexivity.
  - destruct (nth_error (inflight st) i) as [[ | isCorrect | ]|]; try exact H.
    apply resume_review_sound. revert H.
    apply timers_sound_same; reflexivity.
  - destruct (nth_error (inflight st) i) as [[ | | ]|]; try exact H.
    apply resume_stats_sound. revert H.
    apply timers_sound_same; reflexivity.
Qed.

Lemma dashboard_step_sound e d :
  timers_sound (component d) -> timers_sound (component (dashboard_step e d)).
Proof.
  intros H. destruct e as [e | | res]; cbn.
  - apply step_sound, H.
  - destruct (retrain_btn_enabled (component d)); exact H.
  - destruct (retraining_inflight d); [exact H|].
    destruct res; cbn.
    + apply showNotification_sound, H.
    + apply fetchData_sound, showNotification_sound, H.
Qed.

Lemma dashboard_run_sound es d :
  timers_sound (component d) -> timers_sound (component (dashboard_run es d)).
Proof.
  revert d. induction es as [|e es IH]; intros d H; [exact H|].
  cbn. apply IH, dashboard_step_sound, H.
Qed.

Lemma initial_sound : timers_sound initial.
Proof. split; [intros H; exfalso; apply H; reflexivity | constructor]. Qed.

(** X10: no notification stays for more than 3000 units.  After any run
    of the dashboard from its mounting, whatever was shown and whenever,
    once the clock has moved 3000 units further with nothing new shown the
    slot is empty. *)
Theorem notification_gone_after_3000 (es : list DashboardEvent) (t : Z) :
  clock (component (dashboard_run es dashboard_initial)) + 3000 <= t ->
  notification (elapse t (component (dashboard_run es dashboard_initial))) = None.
Proof.
  intros Ht.
  destruct (dashboard_run_sound es dashboard_initial initial_sound) as [HI HJ].
  set (st := component (dashboard_run es dashboard_initial)) in *.
  rewrite elapse_notification.
  destruct (existsb (fun d => d <=? t) (timeouts st)) eqn:E; [reflexivity|].
  destruct (notification st) as [n|]; [exfalso|reflexivity].
  destruct (timeouts st) as [|d ds]; [apply HI; [discriminate|reflexivity]|].
  cbn in E. apply orb_false_elim in E as [Hd _]. apply Z.leb_gt in Hd.
  inversion HJ as [|d' ds' Hle _]. clear - Ht Hd Hle. lia.
Qed.

Lemma notification_gone_after_3000_witness :
  notification
    (elapse 4500
       (component
          (dashboard_run
             [ AppEvent Mount;
               AppEvent (SettleFetchData 0 Rejected Rejected);
               AppEvent (Elapse 1500);
               ClickRetrain;
               SettleRetraining Rejected ]
             dashboard_initial))) = None.
Proof.
  apply (notification_gone_after_3000
           [ AppEvent Mount;
             AppEvent (SettleFetchData 0 Rejected Rejected);
             AppEvent (Elapse 1500);
             ClickRetrain;
             SettleRetraining Rejected ]
           4500).
  vm_compute. discriminate.
Defined.

(** ** The retraining trigger *)

(** X12: one retraining round from a dashboard with nothing in flight.
    A click on the live button sends one trigger.  When the gateway
    replies, the notification is the reply's message with type success,
    both reload requests leave and a [fetchData] waits, while the queue
    and the stats are still the old ones; when that reload settles with
    two well-formed replies each slice follows its own [success] flag, the
    notification is untouched, and the button is live again exactly when
    the stats now held do not say that retraining is in progress.  When
    the trigger rejects instead, the notification is the error "Failed to
    trigger retraining" and nothing is reloaded. *)
Theorem retraining_round
    (result : RetrainReply) (samplesData : LoadSamplesReply)
    (statsData : StatsReply) (d : Dashboard) :
  retrain_btn_enabled (component d) = true ->
  inflight (component d) = [] ->
  let st := component d in
  let d1 := dashboard_run [ ClickRetrain; SettleRetraining (Json result) ] d in
  let d2 :=
    dashboard_step
      (AppEvent (SettleFetchData 0 (Json samplesData) (Json statsData))) d1 in
  let dr := dashboard_run [ ClickRetrain; SettleRetraining Rejected ] d in
  let shown := {| message := retrain_message result; type := "success" |} in
  let failed := {| message := "Failed to trigger retraining"; type := "error" |} in
  (retraining_sent d1 = S (retraining_sent d) /\
   retraining_inflight d1 = retraining_inflight d /\
   log (component d1) =
     log st ++
     [ SetNotification (Some shown); SetTimeout (clock st + 3000);
       Fetch GET_load_samples; Fetch GET_stats ] /\
   inflight (component d1) = [ fetchData_await_all ] /\
   samples (component d1) = samples st /\
   stats (component d1) = stats st) /\
  (samples (component d2) =
     (if samplesData_success samplesData
      then samplesData_samples samplesData else samples st) /\
   stats (component d2) =
     (if statsData_success statsData
      then Some (statsData_stats statsData) else stats st) /\
   notification (component d2) = Some shown /\
   inflight (component d2) = [] /\
   retrain_btn_enabled (component d2) =
     (if statsData_success statsData
      then negb (retraining_in_progress (statsData_stats statsData))
      else true)) /\
  (retraining_sent dr = S (retraining_sent d) /\
   log (component dr) =
     log st ++ [ SetNotification (Some failed); SetTimeout (clock st + 3000) ] /\
   notification (component dr) = Some failed /\
   inflight (component dr) = [] /\
   samples (component dr) = samples st /\
   stats (component dr) = stats st).
Proof.
  intros Hen Hi.
  destruct d as [[q s l p c n now ts fl lg] sent infl].
  cbn in Hen, Hi. subst fl. unfold retrain_btn_enabled in Hen. cbn in Hen.
  destruct l; [discriminate Hen|].
  destruct result as [msg].
  destruct samplesData as [[|] newSamples], statsData as [[|] newStats];
    destruct s as [[acc tot cor inc cnt thr [|]]|]; try discriminate Hen;
    cbn zeta; repeat split; try (vm_compute; reflexivity);
    cbn; rewrite <- !app_assoc; reflexivity.
Qed.

Lemma retraining_round_witness :
  let result := {| retrain_message := "Retraining started" |} in
  let samplesData :=
    {| samplesData_success := true; samplesData_samples := [sample_b] |} in
  let statsData :=
    {| statsData_success := true;
       statsData_stats :=
         {| accuracy := 80; total_reviewed := 10; correct_predictions := 8;
            incorrect_predictions := 2; pending_feedback_count := 0;
            pending_feedback_threshold := 50;
            retraining_in_progress := true |} |} in
  let d := lift (fun _ => loaded |> set_inflight []) dashboard_initial in
  let st := component d in
  let d1 := dashboard_run [ ClickRetrain; SettleRetraining (Json result) ] d in
  let d2 :=
    dashboard_step
      (AppEvent (SettleFetchData 0 (Json samplesData) (Json statsData))) d1 in
  let dr := dashboard_run [ ClickRetrain; SettleRetraining Rejected ] d in
  let shown := {| message := retrain_message result; type := "success" |} in
  let failed := {| message := "Failed to trigger retraining"; type := "error" |} in
  (retraining_sent d1 = S (retraining_sent d) /\
   retraining_inflight d1 = retraining_inflight d /\
   log (component d1) =
     log st ++
     [ SetNotification (Some shown); SetTimeout (clock st + 3000);
       Fetch GET_load_samples; Fetch GET_stats ] /\
   inflight (component d1) = [ fetchData_await_all ] /\
   samples (component d1) = samples st /\
   stats (component d1) = stats st) /\
  (samples (component d2) =
     (if samplesData_success samplesData
      then samplesData_samples samplesData else samples st) /\
   stats (component d2) =
     (if statsData_success statsData
      then Some (statsData_stats statsData) else stats st) /\
   notification (component d2) = Some shown /\
   inflight (component d2) = [] /\
   retrain_btn_enabled (component d2) =
     (if statsData_success statsData
      then negb (retraining_in_progress (statsData_stats statsData))
      else true)) /\
  (retraining_sent dr = S (retraining_sent d) /\
   log (component dr) =
     log st ++ [ SetNotification (Some failed); SetTimeout (clock st + 3000) ] /\
   notification (component dr) = Some failed /\
   inflight (component dr) = [] /\
   samples (component dr) = samples st /\
   stats (component dr) = stats st).
Proof.
  apply (retraining_round
           {| retrain_message := "Retraining started" |}
           {| samplesData_success := true; samplesData_samples := [sample_b] |}
           {| statsData_success := true;
              statsData_stats :=
                {| accuracy := 80; total_reviewed := 10; correct_predictions := 8;
                   incorrect_predictions := 2; pending_feedback_count := 0;
                   pending_feedback_threshold := 50;
                   retraining_in_progress := true |} |}
           (lift (fun _ => loaded |> set_inflight []) dashboard_initial));
    reflexivity.
Defined.

Lemma retrain_btn_enabled_same st st' :
  loading st' = loading st -> stats st' = stats st ->
  retrain_btn_enabled st' = retrain_btn_enabled st.
Proof. unfold retrain_btn_enabled. intros -> ->. reflexivity. Qed.

Lemma retraining_step_keeps e d :
  is_retraining_event e = true ->
  retrain_btn_enabled (component d) = true ->
  let d' := dashboard_step e d in
  retraining_sent d' =
    (retraining_sent d + (if is_retrain_click e then 1 else 0))%nat /\
  retrain_btn_enabled (component d') = true /\
  samples (component d') = samples (component d) /\
  stats (component d') = stats (component d).
Proof.
  intros He Hen. destruct e as [e | | res]; [discriminate He| |]; cbn.
  - rewrite Hen. cbn. rewrite Nat.add_1_r. auto.
  - rewrite Nat.add_0_r. destruct (retraining_inflight d); [auto|].
    split; [reflexivity|]. split; [|apply retraining_keeps].
    rewrite <- Hen. apply retrain_btn_enabled_same;
      destruct res; reflexivity.
Qed.

(** X13: the retraining trigger has no latch of its own.  While no stats
    reply arrives, that is over any sequence made only of clicks on the
    retrain button and of settlings of trigger calls, a button that is
    live stays live, every click sends one more trigger, and neither the
    queue nor the stats change. *)
Theorem retrain_clicks_are_never_latched
    (es : list DashboardEvent) (d : Dashboard) :
  forallb is_retraining_event es = true ->
  retrain_btn_enabled (component d) = true ->
  let d' := dashboard_run es d in
  retraining_sent d' =
    (retraining_sent d + List.length (filter is_retrain_click es))%nat /\
  retrain_btn_enabled (component d') = true /\
  samples (component d') = samples (component d) /\
  stats (component d') = stats (component d).
Proof.
  revert d. induction es as [|e es IH]; intros d Hes Hen.
  - cbn. rewrite Nat.add_0_r. auto.
  - cbn in Hes. apply andb_prop in Hes as [He Hes].
    destruct (retraining_step_keeps e d He Hen) as (Hsent & Hen' & Hq & Hs).
    destruct (IH (dashboard_step e d) Hes Hen') as (IHsent & IHen & IHq & IHs).
    cbn zeta.
    change (dashboard_run (e :: es) d)
      with (dashboard_run es (dashboard_step e d)).
    split; [|split; [exact IHen|split]].
    + rewrite IHsent, Hsent. cbn [filter].
      destruct (is_retrain_click e); cbn [List.length]; lia.
    + rewrite IHq. exact Hq.
    + rewrite IHs. exact Hs.
Qed.

Lemma retrain_clicks_are_never_latched_witness :
  let es := [ ClickRetrain; ClickRetrain;
              SettleRetraining (Json {| retrain_message := "Retraining started" |});
              ClickRetrain ] in
  let d := lift (fun _ => loaded) dashboard_initial in
  let d' := dashboard_run es d in
  retraining_sent d' =
    (retraining_sent d + List.length (filter is_retrain_click es))%nat /\
  retrain_btn_enabled (component d') = true /\
  samples (component d') = samples (component d) /\
  stats (component d') = stats (component d).
Proof.
  apply (retrain_clicks_are_never_latched
           [ ClickRetrain; ClickRetrain;
             SettleRetraining (Json {| retrain_message := "Retraining started" |});
             ClickRetrain ]
           (lift (fun _ => loaded) dashboard_initial));
    reflexivity.
Defined.

(** ** The correction panel *)

Lemma option_click_effect (a : Z) (s : Sample) (rest : list Sample) (st : State) :
  loading st = false -> correctionMode st = true -> samples st = s :: rest ->
  In a (correction_options s) ->
  let st' := step (Click (btn_option a)) st in
  loading st' = false /\ correctionMode st' = true /\ samples st' = s :: rest /\
  processing st' = true /\
  inflight st' = inflight st ++ [ handleReview_await_review false ] /\
  log st' =
    log st ++
    [ SetProcessing true;
      Fetch (POST_review (review_body s false (JsNumber a))) ].
Proof.
  intros Hl Hc Hq Hin.
  assert (Hen : enabled (btn_option a) st = true).
  { unfold enabled, currentSample. rewrite Hl, Hq. cbn. rewrite Hc. cbn.
    apply existsb_exists. exists a. split; [exact Hin|apply Z.eqb_refl]. }
  cbn zeta. cbn [step]. rewrite Hen. cbn [onClick].
  rewrite (handleReview_log _ _ _ _ _ Hq), handleReview_samples.
  unfold handleReview. rewrite Hq. cbn. auto 7.
Qed.

(** X15: the option buttons of the correction panel are never latched.
    In correction mode, clicks on offered options, as many as there are
    and in any order, each send one more review of the same head sample
    and suspend one more handler; the queue and the panel stay as they
    are. *)
Theorem option_clicks_are_never_latched
    (choices : list Z) (s : Sample) (rest : list Sample) (st : State) :
  loading st = false -> correctionMode st = true -> samples st = s :: rest ->
  Forall (fun a => In a (correction_options s)) choices ->
  let st' := run (map (fun a => Click (btn_option a)) choices) st in
  inflight st' =
    inflight st ++ map (fun _ => handleReview_await_review false) choices /\
  log st' =
    log st ++
    flat_map
      (fun a => [ SetProcessing true;
                  Fetch (POST_review (review_body s false (JsNumber a))) ])
      choices /\
  samples st' = s :: rest /\
  correctionMode st' = true.
Proof.
  revert st. induction choices as [|a choices IH]; intros st Hl Hc Hq Hall.
  - cbn. rewrite !app_nil_r. auto.
  - inversion Hall as [|a' choices' Hin Hrest]; subst.
    destruct (option_click_effect a s rest st Hl Hc Hq Hin)
      as (Hl' & Hc' & Hq' & _ & Hi' & Hlog').
    destruct (IH _ Hl' Hc' Hq' Hrest) as (IHi & IHlog & IHq & IHc).
    cbn zeta.
    change (run (map (fun a => Click (btn_option a)) (a :: choices)) st)
      with (run (map (fun a => Click (btn_option a)) choices)
              (step (Click (btn_option a)) st)).
    rewrite IHi, IHlog, Hi', Hlog'. cbn [map flat_map].
    rewrite <- !app_assoc. auto.
Qed.

Lemma option_clicks_are_never_latched_witness :
  let st := step (Click btn_reject) loaded in
  let st' := run (map (fun a => Click (btn_option a)) [0; 1; 0]) st in
  inflight st' =
    inflight st ++ map (fun _ => handleReview_await_review false) [0; 1; 0] /\
  log st' =
    log st ++
    flat_map
      (fun a => [ SetProcessing true;
                  Fetch (POST_review (review_body sample_a false (JsNumber a))) ])
      [0; 1; 0] /\
  samples st' = [sample_a; sample_b] /\
  correctionMode st' = true.
Proof.
  apply (option_clicks_are_never_latched [0; 1; 0] sample_a [sample_b]
           (step (Click btn_reject) loaded)); try reflexivity.
  repeat (apply Forall_cons || apply Forall_nil); vm_compute; auto.
Defined.

(** X14: "incorrect prediction" followed by "cancel" is a round trip.
    From the direct state with a sample to review and no review being
    processed, the two clicks contact nobody and arm no timer, and the
    dashboard is back in the direct state with the same queue, stats,
    notification and latch; in between, the panel is open. *)
Theorem reject_then_cancel_round_trip (st : State) :
  enabled btn_reject st = true ->
  let st1 := step (Click btn_reject) st in
  let st2 := step (Click btn_cancel) st1 in
  correctionMode st1 = true /\
  log st2 = log st ++ [ SetCorrectionMode true; SetCorrectionMode false ] /\
  correctionMode st2 = correctionMode st /\
  samples st2 = samples st /\ stats st2 = stats st /\
  loading st2 = loading st /\ processing st2 = processing st /\
  notification st2 = notification st /\ timeouts st2 = timeouts st /\
  inflight st2 = inflight st.
Proof.
  intros Hen. cbn zeta. cbn [step]. rewrite Hen. cbn [onClick].
  unfold enabled in Hen.
  destruct (loading st) eqn:Hl; [discriminate|].
  unfold currentSample in Hen.
  destruct (samples st) as [|s rest] eqn:Hq; [discriminate|]. cbn in Hen.
  destruct (correctionMode st) eqn:Hc; [discriminate|].
  unfold enabled, currentSample. cbn. rewrite Hl, Hq. cbn.
  rewrite <- app_assoc. auto 10.
Qed.

Lemma reject_then_cancel_round_trip_witness :
  let st := loaded in
  let st1 := step (Click btn_reject) st in
  let st2 := step (Click btn_cancel) st1 in
  correctionMode st1 = true /\
  log st2 = log st ++ [ SetCorrectionMode true; SetCorrectionMode false ] /\
  correctionMode st2 = correctionMode st /\
  samples st2 = samples st /\ stats st2 = stats st /\
  loading st2 = loading st /\ processing st2 = processing st /\
  notification st2 = notification st /\ timeouts st2 = timeouts st /\
  inflight st2 = inflight st.
Proof.
  apply (reject_then_cancel_round_trip loaded). reflexivity.
Defined.

(** ** A load that the gateway refuses *)

(** X1: when both replies of a [fetchData] are well-formed, each slice is
    applied exactly when its own reply has [success] true: a refused
    samples reply leaves the queue as it was while the stats of the other
    reply are installed, and the other way round.  Nothing is notified in
    any of the four cases, no timer is armed, and [loading] is cleared
    last. *)
Theorem fetchData_applies_each_accepted_slice
    (samplesData : LoadSamplesReply) (statsData : StatsReply) (st : State) :
  let st' := fetchData_resume (Json samplesData) (Json statsData) st in
  samples st' =
    (if samplesData_success samplesData
     then samplesData_samples samplesData else samples st) /\
  stats st' =
    (if statsData_success statsData
     then Some (statsData_stats statsData) else stats st) /\
  log st' =
    log st ++
    (if samplesData_success samplesData
     then [ SetSamples (samplesData_samples samplesData) ] else []) ++
    (if statsData_success statsData
     then [ SetStats (statsData_stats statsData) ] else []) ++
    [ SetLoading false ] /\
  notification st' = notification st /\
  timeouts st' = timeouts st /\
  loading st' = false.
Proof.
  cbn. destruct (samplesData_success samplesData),
         (statsData_success statsData); cbn;
    rewrite <- ?app_assoc; repeat split; reflexivity.
Qed.
